(** * gitlabfs: the gitlab metadata layer and the startup sequence

    A shallow embedding of
      - [gitlab/project.go]  ([newProjectFromGitlabProject]),
      - the file of package [gitlab] that declares [User] and
        [UserContent]          ([FetchUserContent]),
      - [main.go]            ([makeGitlabConfig], [makeGitConfig], [main]),
    with Go's [int] as [Z] (the code only copies and compares them), Go
    strings as [string], Go maps as stdpp's [gmap], Go errors as their
    message, and Go structs as records, one module per struct so that the
    fields keep their Go names. *)

From Stdlib Require Import Ascii.
From stdpp Require Import base numbers strings pretty list gmap fin_maps.

Local Open Scope Z_scope.
Local Open Scope string_scope.
Local Open Scope list_scope.

(** ** The types of [github.com/xanzy/go-gitlab] that the code reads *)

Module xanzy.

Module Project.
Record t : Type := mk {
  ID : Z;
  Name : string;             (* display name *)
  Path : string;             (* URL slug *)
  DefaultBranch : string;
  SSHURLToRepo : string;
  HTTPURLToRepo : string
}.
End Project.

Module ListOptions.
Record t : Type := mk { Page : Z; PerPage : Z }.
End ListOptions.

Module ListProjectsOptions.
Record t : Type := mk { ListOptions : ListOptions.t }.
End ListProjectsOptions.

Module Response.
Record t : Type := mk { CurrentPage : Z; TotalPages : Z; NextPage : Z }.
End Response.

Module User.
Record t : Type := mk {
  ID : Z;
  Username : string;
  Name : string              (* display name *)
}.
End User.

End xanzy.

(** ** Package [gitlab] *)

Module gitlab.

(** [GitlabClientParam], with the two fields [main.go] fills in. *)
Module GitlabClientParam.
Record t : Type := mk { PullMethod : string; IncludeCurrentUser : bool }.
End GitlabClientParam.

(** [gitlabClient] embeds its [GitlabClientParam] (the code reads
    [c.PullMethod]); its API handle [c.client] is the remote of section
    [Fetch] below. *)
Module gitlabClient.
Record t : Type := mk { GitlabClientParam : GitlabClientParam.t }.
Definition PullMethod (c : t) : string :=
  GitlabClientParam.PullMethod (GitlabClientParam c).
End gitlabClient.

Module Project.
Record t : Type := mk {
  ID : Z;
  Name : string;
  CloneURL : string;
  DefaultBranch : string
}.
End Project.

Section ProjectConstruction.

(** The constant [PullMethodSSH] is declared in a file of the package
    that is not part of the sources at hand: it is a parameter here. *)
Variable PullMethodSSH : string.

(** [project.go], [newProjectFromGitlabProject]: the record literal, then
    the two in-place assignments to [p.DefaultBranch] and [p.CloneURL]. *)
Definition newProjectFromGitlabProject
    (c : gitlabClient.t) (project : xanzy.Project.t) : Project.t :=
  let p := Project.mk (xanzy.Project.ID project)
                      (xanzy.Project.Path project)
                      EmptyString
                      (xanzy.Project.DefaultBranch project) in
  let p := if decide (Project.DefaultBranch p = EmptyString)
           then Project.mk (Project.ID p) (Project.Name p)
                           (Project.CloneURL p) "master"
           else p in
  let p := if decide (gitlabClient.PullMethod c = PullMethodSSH)
           then Project.mk (Project.ID p) (Project.Name p)
                           (xanzy.Project.SSHURLToRepo project)
                           (Project.DefaultBranch p)
           else Project.mk (Project.ID p) (Project.Name p)
                           (xanzy.Project.HTTPURLToRepo project)
                           (Project.DefaultBranch p) in
  p.

End ProjectConstruction.

(** *** The file of [FetchUserContent] *)

(** A [*UserContent] is an address in a heap of [UserContent] objects:
    the pointer cached in the user and the pointer handed to the caller
    are the same object.  The [*Project] values of the map point each to
    the fresh [project] variable of one loop iteration, which nothing else
    refers to: they are kept by value. *)
Abbreviation loc := nat.

Module UserContent.
Record t : Type := mk { Projects : gmap string Project.t }.
End UserContent.

Module User.
Record t : Type := mk { ID : Z; Name : string; content : option loc }.
End User.

(** What [c.client.Projects.ListUserProjects] hands back: the projects of
    one page with the pagination header, or an error. *)
Definition Reply : Type :=
  (list xanzy.Project.t * xanzy.Response.t) + string.

(** One call of the remote API: the user id and the options sent, and the
    reply received. *)
Definition Exchange : Type :=
  (Z * xanzy.ListProjectsOptions.t) * Reply.

(** The state the code runs in: the remote (any state machine [W]), the
    record of every API call made so far, and the heap. *)
Module State.
Record t (W : Type) : Type := mk {
  remote : W;
  calls : list Exchange;
  heap : list UserContent.t
}.
Arguments mk {W} _ _ _.
Arguments remote {W} _.
Arguments calls {W} _.
Arguments heap {W} _.
End State.

(** How the [for] loop of [FetchUserContent] is left. *)
Inductive LoopExit : Type :=
| Break
| ReturnErr (err : string).

Section Fetch.

Context {W : Type}.

(** The remote API behind [c.client]. *)
Variable ListUserProjects :
  W -> Z -> xanzy.ListProjectsOptions.t -> W * Reply.

(** [FetchUserContent] calls a package-level
    [NewProjectFromGitlabProject], which the sources at hand do not
    contain ([project.go] has the method [newProjectFromGitlabProject]):
    it is a parameter here. *)
Variable NewProjectFromGitlabProject : xanzy.Project.t -> Project.t.

Definition callListUserProjects (s : State.t W) (uid : Z)
    (opt : xanzy.ListProjectsOptions.t) : State.t W * Reply :=
  let '(w, r) := ListUserProjects (State.remote s) uid opt in
  (State.mk w (State.calls s ++ [((uid, opt), r)]) (State.heap s), r).

(** [content.Projects[project.Name] = &project] *)
Definition storeProject (content : loc) (h : list UserContent.t)
    (gitlabProject : xanzy.Project.t) : list UserContent.t :=
  let project := NewProjectFromGitlabProject gitlabProject in
  alter (fun c => UserContent.mk
                    (<[Project.Name project := project]>
                       (UserContent.Projects c)))
        content h.

(** [listProjectOpt.Page = response.NextPage] *)
Definition setPage (opt : xanzy.ListProjectsOptions.t) (page : Z)
    : xanzy.ListProjectsOptions.t :=
  xanzy.ListProjectsOptions.mk
    (xanzy.ListOptions.mk page
       (xanzy.ListOptions.PerPage (xanzy.ListProjectsOptions.ListOptions opt))).

(** The [for { ... }] loop; one unit of fuel per iteration, [None] when
    the fuel runs out before the loop is left. *)
Fixpoint fetchLoop (fuel : nat) (s : State.t W) (uid : Z)
    (listProjectOpt : xanzy.ListProjectsOptions.t) (content : loc)
    : State.t W * option LoopExit :=
  match fuel with
  | O => (s, None)
  | S fuel' =>
    let '(s, r) := callListUserProjects s uid listProjectOpt in
    match r with
    | inr err =>
      (s, Some (ReturnErr ("failed to fetch projects in gitlab: " +:+ err)))
    | inl (gitlabProjects, response) =>
      let s := State.mk (State.remote s) (State.calls s)
                 (fold_left (storeProject content) gitlabProjects
                            (State.heap s)) in
      if decide (xanzy.Response.CurrentPage response
                 >= xanzy.Response.TotalPages response)
      then (s, Some Break)
      else fetchLoop fuel' s uid
             (setPage listProjectOpt (xanzy.Response.NextPage response))
             content
    end
  end.

Definition firstPage : xanzy.ListProjectsOptions.t :=
  xanzy.ListProjectsOptions.mk (xanzy.ListOptions.mk 1 1000).

(** [FetchUserContent], which takes a pointer to the user and returns a
    pointer to its content or an error: the state and the user object
    after the call, and what is returned ([None]: the loop was still
    running when the fuel ran out). *)
Definition FetchUserContent (fuel : nat) (s : State.t W) (user : User.t)
    : State.t W * User.t * option (loc + string) :=
  match User.content user with
  | Some c => (s, user, Some (inl c))
  | None =>
    let content := length (State.heap s) in
    let s := State.mk (State.remote s) (State.calls s)
               (State.heap s ++ [UserContent.mk ∅]) in
    match fetchLoop fuel s (User.ID user) firstPage content with
    | (s, None) => (s, user, None)
    | (s, Some (ReturnErr err)) => (s, user, Some (inr err))
    | (s, Some Break) =>
      (s, User.mk (User.ID user) (User.Name user) (Some content),
       Some (inl content))
    end
  end.

End Fetch.

(** [NewUserFromGitlabUser]: the record literal leaves [content] nil. *)
Definition NewUserFromGitlabUser (user : xanzy.User.t) : User.t :=
  User.mk (xanzy.User.ID user) (xanzy.User.Username user) None.

Section Users.

Context {W : Type}.

(** The remote API behind [c.client.Users]. *)
Variable GetUser : W -> Z -> W * (xanzy.User.t + string).
Variable CurrentUser : W -> W * (xanzy.User.t + string).

(** [FetchUser]: the returned pointer is to a user object made by this
    call, which is returned by value here.  [%v] prints the id in
    decimal. *)
Definition FetchUser (s : State.t W) (uid : Z)
    : State.t W * (User.t + string) :=
  let '(w, r) := GetUser (State.remote s) uid in
  let s := State.mk w (State.calls s) (State.heap s) in
  match r with
  | inr err =>
    (s, inr ("failed to fetch user with id " +:+ pretty uid +:+ ": " +:+ err))
  | inl gitlabUser => (s, inl (NewUserFromGitlabUser gitlabUser))
  end.

Definition FetchCurrentUser (s : State.t W)
    : State.t W * (User.t + string) :=
  let '(w, r) := CurrentUser (State.remote s) in
  let s := State.mk w (State.calls s) (State.heap s) in
  match r with
  | inr err => (s, inr ("failed to fetch current user: " +:+ err))
  | inl gitlabUser => (s, inl (NewUserFromGitlabUser gitlabUser))
  end.

End Users.

End gitlab.

(** ** Package [git]: the parameter record that [main.go] fills in *)

Module git.

Module GitClientParam.
Record t (URL : Type) : Type := mk {
  CloneLocation : string;
  RemoteName : string;
  RemoteURL : URL;
  CloneMethod : Z;
  AutoPull : bool;
  PullDepth : Z;
  QueueSize : Z;
  QueueWorkerCount : Z
}.
Arguments mk {URL} _ _ _ _ _ _ _ _.
Arguments CloneLocation {URL} _.
Arguments RemoteName {URL} _.
Arguments RemoteURL {URL} _.
Arguments CloneMethod {URL} _.
Arguments AutoPull {URL} _.
Arguments PullDepth {URL} _.
Arguments QueueSize {URL} _.
Arguments QueueWorkerCount {URL} _.
End GitClientParam.

End git.

(** ** Package [main] *)

Module main.

Module FSConfig.
Record t : Type := mk { Mountpoint : string; MountOptions : string }.
End FSConfig.

Module GitlabConfig.
Record t : Type := mk {
  URL : string;
  Token : string;
  GroupIDs : list Z;
  UserIDs : list Z;
  IncludeCurrentUser : bool
}.
End GitlabConfig.

Module GitConfig.
Record t : Type := mk {
  CloneLocation : string;
  Remote : string;
  PullMethod : string;
  OnClone : string;
  AutoPull : bool;
  Depth : Z;
  QueueSize : Z;
  QueueWorkerCount : Z
}.
End GitConfig.

Module Config.
Record t : Type := mk {
  FS : FSConfig.t;
  Gitlab : GitlabConfig.t;
  Git : GitConfig.t
}.
End Config.

(** The command line after [flag.Parse()]: the three flags and the
    positional arguments. *)
Module Flags.
Record t : Type := mk {
  config : string;
  o : string;
  debug : bool;
  args : list string
}.
End Flags.

(** [fs.FSParam], as [main] fills it in. *)
Module FSParam.
Record t (GitClient GitlabClient : Type) : Type := mk {
  Git : GitClient;
  Gitlab : GitlabClient;
  RootGroupIds : list Z;
  UserIds : list Z
}.
Arguments mk {GitClient GitlabClient} _ _ _ _.
Arguments Git {GitClient GitlabClient} _.
Arguments Gitlab {GitClient GitlabClient} _.
Arguments RootGroupIds {GitClient GitlabClient} _.
Arguments UserIds {GitClient GitlabClient} _.
End FSParam.

(** The double quote character, for the messages that quote a value. *)
Definition dquote : string := String "034"%char EmptyString.

(** [strings.Split(s, sep)] for a separator of one character. *)
Fixpoint splitFrom (sep : ascii) (field : string) (s : string) : list string :=
  match s with
  | EmptyString => [field]
  | String ch rest =>
    if decide (ch = sep)
    then field :: splitFrom sep EmptyString rest
    else splitFrom sep (field +:+ String ch EmptyString) rest
  end.

Definition strings_Split (s : string) (sep : ascii) : list string :=
  splitFrom sep EmptyString s.

(** What the process does that the outside can see, in order.  [Exit]
    ends the process: nothing follows it in a trace of [main]. *)
Inductive Event (URL GitClient GitlabClient : Type) : Type :=
| Println (msg : string)
| Usage
| Exit (code : Z)
| git_NewClient (p : git.GitClientParam.t URL)
| gitlab_NewClient (url token : string) (p : gitlab.GitlabClientParam.t)
| fs_Start (mountpoint : string) (mountoptions : list string)
           (param : FSParam.t GitClient GitlabClient) (debug : bool).
Arguments Println {URL GitClient GitlabClient} _.
Arguments Usage {URL GitClient GitlabClient}.
Arguments Exit {URL GitClient GitlabClient} _.
Arguments git_NewClient {URL GitClient GitlabClient} _.
Arguments gitlab_NewClient {URL GitClient GitlabClient} _ _ _.
Arguments fs_Start {URL GitClient GitlabClient} _ _ _ _.

Section Startup.

(** Constants of the packages [gitlab] and [git], declared in files that
    are not part of the sources at hand. *)
Variables PullMethodHTTP PullMethodSSH : string.
Variables CloneInit CloneClone : Z.

(** The environment of the process. *)
Variable Getenv : string -> string.
Variable filepath_Join : string -> string -> string.
Variable File : Type.
Variable os_Open : string -> File + string.
(** [yaml.NewDecoder(f).Decode(config)]: fills the given defaults in. *)
Variable yaml_Decode : File -> Config.t -> Config.t + string.
Variable URL : Type.
Variable url_Parse : string -> URL + string.

(** The constructors of the two clients and the start of the
    filesystem, none of them part of the sources at hand; [main] drops
    the error of both constructors. *)
Variables GitClient GitlabClient : Type.
Variable git_NewClient_result : git.GitClientParam.t URL -> GitClient.
Variable gitlab_NewClient_result :
  string -> string -> gitlab.GitlabClientParam.t -> GitlabClient.
Variable fs_Start_result :
  string -> list string -> FSParam.t GitClient GitlabClient -> bool ->
  option string.

Definition loadConfig (configPath : string) : Config.t + string :=
  let dataHome := Getenv "XDG_DATA_HOME" in
  let dataHome := if decide (dataHome = EmptyString)
                  then filepath_Join (Getenv "HOME") ".local/share"
                  else dataHome in
  let defaultCloneLocation := filepath_Join dataHome "gitlabfs" in
  let config :=
    Config.mk
      (FSConfig.mk EmptyString "nodev,nosuid")
      (GitlabConfig.mk "https://gitlab.com" EmptyString [9970] [] true)
      (GitConfig.mk defaultCloneLocation "origin" "http" "init" false 0 200 5) in
  if decide (configPath <> EmptyString)
  then match os_Open configPath with
       | inr err => inr ("failed to open config file: " +:+ err)
       | inl f =>
         match yaml_Decode f config with
         | inr err => inr ("failed to parse config file: " +:+ err)
         | inl config => inl config
         end
       end
  else inl config.

Definition makeGitlabConfig (config : Config.t)
    : gitlab.GitlabClientParam.t + string :=
  if decide (GitConfig.PullMethod (Config.Git config) <> PullMethodHTTP
             /\ GitConfig.PullMethod (Config.Git config) <> PullMethodSSH)
  then inr ("pull_method must be either " +:+ dquote +:+ PullMethodHTTP
            +:+ dquote +:+ " or " +:+ dquote +:+ PullMethodSSH +:+ dquote)
  else inl (gitlab.GitlabClientParam.mk
              (GitConfig.PullMethod (Config.Git config))
              (GitlabConfig.IncludeCurrentUser (Config.Gitlab config)
               && bool_decide (GitlabConfig.Token (Config.Gitlab config)
                               <> EmptyString))).

Definition makeGitConfig (config : Config.t)
    : git.GitClientParam.t URL + string :=
  match url_Parse (GitlabConfig.URL (Config.Gitlab config)) with
  | inr err => inr err
  | inl parsedGitlabURL =>
    let cloneMethod : option Z :=
      if decide (GitConfig.OnClone (Config.Git config) = "init")
      then Some CloneInit
      else if decide (GitConfig.OnClone (Config.Git config) = "clone")
      then Some CloneClone
      else None in
    match cloneMethod with
    | None =>
      inr ("on_clone must be either " +:+ dquote +:+ "init" +:+ dquote
           +:+ " or " +:+ dquote +:+ "clone" +:+ dquote)
    | Some cloneMethod =>
      inl (git.GitClientParam.mk
             (GitConfig.CloneLocation (Config.Git config))
             (GitConfig.Remote (Config.Git config))
             parsedGitlabURL
             cloneMethod
             (GitConfig.AutoPull (Config.Git config))
             (GitConfig.Depth (Config.Git config))
             (GitConfig.QueueSize (Config.Git config))
             (GitConfig.QueueWorkerCount (Config.Git config)))
    end
  end.

Abbreviation Trace := (list (Event URL GitClient GitlabClient)).

(** [main], from [flag.Parse()] on. *)
Definition main (flags : Flags.t) : Trace :=
  match loadConfig (Flags.config flags) with
  | inr err => [Println err; Exit 1]
  | inl config =>
    let mountpoint := FSConfig.Mountpoint (Config.FS config) in
    let mountpoint :=
      if decide (length (Flags.args flags) = 1%nat)
      then nth 0 (Flags.args flags) EmptyString
      else mountpoint in
    if decide (mountpoint = EmptyString)
    then [Println ("Mountpoint is not configured in config file and "
                   +:+ "missing from command-line arguments");
          Usage; Exit 2]
    else
      let mountoptions := FSConfig.MountOptions (Config.FS config) in
      let mountoptions :=
        if decide (Flags.o flags <> EmptyString)
        then Flags.o flags else mountoptions in
      let parsedMountoptions :=
        if decide (mountoptions <> EmptyString)
        then strings_Split mountoptions ","%char else [] in
      match makeGitConfig config with
      | inr err => [Println err; Exit 1]
      | inl gitClientParam =>
        let gitClient := git_NewClient_result gitClientParam in
        git_NewClient gitClientParam ::
        match makeGitlabConfig config with
        | inr err => [Println err; Exit 1]
        | inl gitlabClientParam =>
          let gitlabClient :=
            gitlab_NewClient_result
              (GitlabConfig.URL (Config.Gitlab config))
              (GitlabConfig.Token (Config.Gitlab config))
              gitlabClientParam in
          let param :=
            FSParam.mk gitClient gitlabClient
              (GitlabConfig.GroupIDs (Config.Gitlab config))
              (GitlabConfig.UserIDs (Config.Gitlab config)) in
          gitlab_NewClient (GitlabConfig.URL (Config.Gitlab config))
                           (GitlabConfig.Token (Config.Gitlab config))
                           gitlabClientParam ::
          fs_Start mountpoint parsedMountoptions param (Flags.debug flags) ::
          match fs_Start_result mountpoint parsedMountoptions param
                                (Flags.debug flags) with
          | Some err => [Println err; Exit 1]
          | None => []
          end
        end
      end
  end.

End Startup.

End main.

(** ** Vocabulary of the statements about [FetchUserContent] *)

Section FetchVocabulary.

Context {W : Type}.
Variable ListUserProjects :
  W -> Z -> xanzy.ListProjectsOptions.t -> W * gitlab.Reply.
Variable NewProjectFromGitlabProject : xanzy.Project.t -> gitlab.Project.t.

(** The key under which a remote project is stored. *)
Definition entryName (gp : xanzy.Project.t) : string :=
  gitlab.Project.Name (NewProjectFromGitlabProject gp).

(** The map after the projects of a listing were stored into it, in the
    order of the listing. *)
Definition addProjects (gps : list xanzy.Project.t)
    (m : gmap string gitlab.Project.t) : gmap string gitlab.Project.t :=
  fold_left (fun m gp => <[entryName gp := NewProjectFromGitlabProject gp]> m)
            gps m.

(** The projects that the replies of a series of API calls list, in the
    order received, and the errors among the replies. *)
Definition listed (tr : list gitlab.Exchange) : list xanzy.Project.t :=
  concat ((fun ex : gitlab.Exchange =>
             match ex.2 with inl (gps, _) => gps | inr _ => [] end) <$> tr).

Definition failures (tr : list gitlab.Exchange) : list string :=
  concat ((fun ex : gitlab.Exchange =>
             match ex.2 with inl _ => [] | inr err => [err] end) <$> tr).

(** The API calls made between two states. *)
Definition newCalls (s s' : gitlab.State.t W) : list gitlab.Exchange :=
  drop (length (gitlab.State.calls s)) (gitlab.State.calls s').

(** The options the loop sends for a page. *)
Definition pageRequest (page : Z) : xanzy.ListProjectsOptions.t :=
  xanzy.ListProjectsOptions.mk (xanzy.ListOptions.mk page 1000).

(** A reply that announces further pages. *)
Definition announcesMore (ex : gitlab.Exchange) : Prop :=
  match ex.2 with
  | inl (_, response) =>
    xanzy.Response.CurrentPage response < xanzy.Response.TotalPages response
  | inr _ => False
  end.

(** The remote holds the projects of user [uid] as the pages [pages]:
    asked for page [i], it replies with that page and a pagination header
    that numbers it [i] of [length pages] and names [i + 1] as the next
    page while there is one. *)
Definition serves (uid : Z) (pages : list (list xanzy.Project.t)) : Prop :=
  forall (w : W) (i : nat) (gps : list xanzy.Project.t),
    pages !! i = Some gps ->
    exists w' response,
      ListUserProjects w uid (pageRequest (Z.of_nat (S i)))
        = (w', inl (gps, response))
      /\ xanzy.Response.CurrentPage response = Z.of_nat (S i)
      /\ xanzy.Response.TotalPages response = Z.of_nat (length pages)
      /\ ((S i < length pages)%nat ->
          xanzy.Response.NextPage response = Z.of_nat (S (S i))).

(** The user object after any number of further calls of
    [FetchUserContent] on it, in whatever state each call runs. *)
Inductive laterUser (u : gitlab.User.t) : gitlab.User.t -> Prop :=
| later_now : laterUser u u
| later_call (u1 u2 : gitlab.User.t) (fuel : nat) (s s' : gitlab.State.t W)
    (r : option (gitlab.loc + string)) :
    laterUser u u1 ->
    gitlab.FetchUserContent ListUserProjects NewProjectFromGitlabProject
      fuel s u1 = (s', u2, r) ->
    laterUser u u2.

End FetchVocabulary.

(** ** Vocabulary of the statements about the startup *)

Section StartupVocabulary.

Context {URL GitClient GitlabClient : Type}.

(** The two messages of the checks on the configuration. *)
Definition pullMethodMessage (PullMethodHTTP PullMethodSSH : string) : string :=
  "pull_method must be either " +:+ main.dquote +:+ PullMethodHTTP
  +:+ main.dquote +:+ " or " +:+ main.dquote +:+ PullMethodSSH
  +:+ main.dquote.

Definition onCloneMessage : string :=
  "on_clone must be either " +:+ main.dquote +:+ "init" +:+ main.dquote
  +:+ " or " +:+ main.dquote +:+ "clone" +:+ main.dquote.

(** The events that construct a client (the git client owns the queue)
    or start the filesystem with its tree. *)
Definition constructsGit (e : main.Event URL GitClient GitlabClient) : Prop :=
  match e with main.git_NewClient _ => True | _ => False end.

Definition constructsGitlab (e : main.Event URL GitClient GitlabClient) : Prop :=
  match e with main.gitlab_NewClient _ _ _ => True | _ => False end.

Definition startsFilesystem (e : main.Event URL GitClient GitlabClient) : Prop :=
  match e with main.fs_Start _ _ _ _ => True | _ => False end.

(** The mountpoint [main] settles on: the only positional argument when
    there is exactly one, else the one of the configuration. *)
Definition mountpointOf (flags : main.Flags.t) (config : main.Config.t)
    : string :=
  if decide (length (main.Flags.args flags) = 1%nat)
  then nth 0 (main.Flags.args flags) EmptyString
  else main.FSConfig.Mountpoint (main.Config.FS config).

(** The process ends by printing [msg] and exiting with status [code]. *)
Definition exitsWith (tr : list (main.Event URL GitClient GitlabClient))
    (msg : string) (code : Z) : Prop :=
  exists pre, tr = pre ++ [main.Println msg; main.Exit code]
              \/ tr = pre ++ [main.Println msg; main.Usage; main.Exit code].

End StartupVocabulary.

(** ** Vocabulary of the further statements *)

Section TraceVocabulary.

(** The calls of one run of the loop, seen from the requests: each call
    asks user [uid] for the page that [opt] names; after a reply that
    announces further pages the next call asks for the page the reply
    names as next, and nothing follows a last page or an error. *)
Fixpoint follows (uid : Z) (opt : xanzy.ListProjectsOptions.t)
    (tr : list gitlab.Exchange) : Prop :=
  match tr with
  | [] => True
  | ex :: rest =>
    ex.1 = (uid, opt)
    /\ match ex.2 with
       | inl (_, response) =>
         if decide (xanzy.Response.CurrentPage response
                    >= xanzy.Response.TotalPages response)
         then rest = []
         else follows uid
                (gitlab.setPage opt (xanzy.Response.NextPage response)) rest
       | inr _ => rest = []
       end
  end.

(** [strings.Join(fields, sep)] for a separator of one character. *)
Fixpoint strings_Join (fields : list string) (sep : ascii) : string :=
  match fields with
  | [] => EmptyString
  | field :: rest =>
    match rest with
    | [] => field
    | _ :: _ => field +:+ String sep (strings_Join rest sep)
    end
  end.

(** The character occurs in the string. *)
Fixpoint occursIn (ch : ascii) (s : string) : Prop :=
  match s with
  | EmptyString => False
  | String c rest => c = ch \/ occursIn ch rest
  end.

(** The mount options [main] settles on: those of the [-o] flag when it
    is given, else those of the configuration. *)
Definition mountoptionsOf (flags : main.Flags.t) (config : main.Config.t)
    : string :=
  if decide (main.Flags.o flags <> EmptyString)
  then main.Flags.o flags
  else main.FSConfig.MountOptions (main.Config.FS config).

(** The list of mount options [main] hands to [fs.Start]. *)
Definition parsedMountoptionsOf (flags : main.Flags.t)
    (config : main.Config.t) : list string :=
  if decide (mountoptionsOf flags config <> EmptyString)
  then main.strings_Split (mountoptionsOf flags config) ","%char
  else [].

(** The message of [main] for a missing mountpoint. *)
Definition noMountpointMessage : string :=
  "Mountpoint is not configured in config file and "
  +:+ "missing from command-line arguments".

(** An exit with the given status is among the events. *)
Definition exits {URL GitClient GitlabClient : Type}
    (tr : list (main.Event URL GitClient GitlabClient)) (code : Z) : Prop :=
  main.Exit code ∈ tr.

End TraceVocabulary.

(** ** Callers that race on one user *)

Section RaceVocabulary.

Context {W : Type}.
Variable ListUserProjects :
  W -> Z -> xanzy.ListProjectsOptions.t -> W * gitlab.Reply.
Variable NewProjectFromGitlabProject : xanzy.Project.t -> gitlab.Project.t.

(** Callers of [FetchUserContent] on one user object, every one of which
    has passed the check [user.content != nil] and found the field nil
    before any of them assigns it: nothing in the code keeps a second
    caller from the check while a first one is fetching.  [stale] is the
    user as each caller saw it at its check, [user] the object as it is
    now.  The loops of the callers run one after the other, in the order
    of their fuels; a caller that leaves its loop by [break] assigns its
    content object to [user.content] and returns it, a caller that fails
    returns the error and assigns nothing. *)
Fixpoint raceAfterCheck (fuels : list nat) (s : gitlab.State.t W)
    (user stale : gitlab.User.t)
    : gitlab.State.t W * gitlab.User.t * list (option (gitlab.loc + string)) :=
  match fuels with
  | [] => (s, user, [])
  | fuel :: rest =>
    let call := gitlab.FetchUserContent ListUserProjects
                  NewProjectFromGitlabProject fuel s stale in
    let user :=
      match call.2 with
      | Some (inl _) =>
        gitlab.User.mk (gitlab.User.ID user) (gitlab.User.Name user)
          (gitlab.User.content call.1.2)
      | _ => user
      end in
    let others := raceAfterCheck rest call.1.1 user stale in
    (others.1.1, others.1.2, call.2 :: others.2)
  end.

(** The content pointers among what the callers returned, in order. *)
Definition returned (rs : list (option (gitlab.loc + string)))
    : list gitlab.loc :=
  omap (fun r => match r with Some (inl l) => Some l | _ => None end) rs.

End RaceVocabulary.

(** ** Sample inputs *)

Module sample.

(** Three remote projects; the first two have the same [Path]. *)
Definition demo : xanzy.Project.t :=
  xanzy.Project.mk 1 "Demo" "demo" "main"
    "git@gitlab.com:ann/demo.git" "https://gitlab.com/ann/demo.git".

Definition demoAgain : xanzy.Project.t :=
  xanzy.Project.mk 2 "Demo again" "demo" EmptyString
    "git@gitlab.com:ann/demo-again.git"
    "https://gitlab.com/ann/demo-again.git".

Definition tools : xanzy.Project.t :=
  xanzy.Project.mk 3 "Tools" "tools" "trunk"
    "git@gitlab.com:ann/tools.git" "https://gitlab.com/ann/tools.git".

Definition sshClient : gitlab.gitlabClient.t :=
  gitlab.gitlabClient.mk (gitlab.GitlabClientParam.mk "ssh" true).

Definition httpClient : gitlab.gitlabClient.t :=
  gitlab.gitlabClient.mk (gitlab.GitlabClientParam.mk "http" false).

(** The conversion that [FetchUserContent] is run with in the samples. *)
Definition convert : xanzy.Project.t -> gitlab.Project.t :=
  gitlab.newProjectFromGitlabProject "ssh" sshClient.

(** A remote without state that holds the projects of every user as the
    given pages and fills the pagination header in accordingly. *)
Definition pagedRemote (pages : list (list xanzy.Project.t)) (w : unit)
    (uid : Z) (opt : xanzy.ListProjectsOptions.t) : unit * gitlab.Reply :=
  let page := xanzy.ListOptions.Page (xanzy.ListProjectsOptions.ListOptions opt) in
  (w, inl (nth (Z.to_nat (page - 1)) pages [],
           xanzy.Response.mk page (Z.of_nat (length pages))
             (if decide (page < Z.of_nat (length pages))
              then page + 1 else 0))).

(** The same remote, counting the calls it gets and failing the call
    numbered [failAt] (from 0). *)
Definition flakyRemote (pages : list (list xanzy.Project.t)) (failAt : nat)
    (w : nat) (uid : Z) (opt : xanzy.ListProjectsOptions.t)
    : nat * gitlab.Reply :=
  if decide (w = failAt)
  then (S w, inr "503 Service Unavailable")
  else (S w, (pagedRemote pages () uid opt).2).

Definition ann : gitlab.User.t := gitlab.User.mk 7 "ann" None.

(** A remote whose every reply announces a further page. *)
Definition endlessRemote (w : unit) (uid : Z)
    (opt : xanzy.ListProjectsOptions.t) : unit * gitlab.Reply :=
  let page := xanzy.ListOptions.Page (xanzy.ListProjectsOptions.ListOptions opt) in
  (w, inl ([tools], xanzy.Response.mk page (page + 1) (page + 1))).

(** A remote that leaves the total of pages out of its header (0), with
    more than one page to give. *)
Definition headerlessRemote (w : unit) (uid : Z)
    (opt : xanzy.ListProjectsOptions.t) : unit * gitlab.Reply :=
  let page := xanzy.ListOptions.Page (xanzy.ListProjectsOptions.ListOptions opt) in
  (w, inl (if decide (page = 1) then [demo] else [tools],
           xanzy.Response.mk page 0 (if decide (page = 1) then 2 else 0))).

(** A remote whose listing changes while it is used: one page with
    [demo] at the first call, one page with [tools] from then on. *)
Definition changingRemote (w : nat) (uid : Z)
    (opt : xanzy.ListProjectsOptions.t) : nat * gitlab.Reply :=
  (S w, inl (if decide (w = 0%nat) then [demo] else [tools],
             xanzy.Response.mk 1 1 0)).

(** The users of the remote: user 7 and nobody else. *)
Definition userRemote (w : unit) (uid : Z) : unit * (xanzy.User.t + string) :=
  if decide (uid = 7)
  then (w, inl (xanzy.User.mk 7 "ann" "Ann Example"))
  else (w, inr "404 Not Found").

Definition start {W : Type} (w : W) : gitlab.State.t W :=
  gitlab.State.mk w [] [].

(** An environment for [main]: a home directory, one configuration file
    whose content replaces the defaults, every URL accepted, clients that
    are their parameters, and a filesystem that starts and ends without
    an error. *)
Definition Getenv (key : string) : string :=
  if decide (key = "HOME") then "/home/ann" else EmptyString.

Definition Join (a b : string) : string := a +:+ "/" +:+ b.

Definition Open (file : main.Config.t) (path : string)
    : main.Config.t + string :=
  if decide (path = "gitlabfs.yaml") then inl file
  else inr ("open " +:+ path +:+ ": no such file or directory").

Definition Decode (file defaults : main.Config.t) : main.Config.t + string :=
  inl file.

Definition Parse (url : string) : string + string := inl url.

Definition run (file : main.Config.t) (flags : main.Flags.t)
    : list (main.Event string (git.GitClientParam.t string)
                       gitlab.gitlabClient.t) :=
  main.main "http" "ssh" 0 1 Getenv Join main.Config.t (Open file) Decode
    string Parse (git.GitClientParam.t string) gitlab.gitlabClient.t
    (fun p => p) (fun _ _ p => gitlab.gitlabClient.mk p)
    (fun _ _ _ _ => None) flags.

Definition config (pullMethod onClone token : string) (queueSize : Z)
    : main.Config.t :=
  main.Config.mk
    (main.FSConfig.mk EmptyString "nodev,nosuid")
    (main.GitlabConfig.mk "https://gitlab.com" token [9970] [] true)
    (main.GitConfig.mk "/home/ann/.local/share/gitlabfs" "origin"
       pullMethod onClone false 0 queueSize 5).

Definition flags : main.Flags.t :=
  main.Flags.mk "gitlabfs.yaml" EmptyString false ["/mnt"].

(** No configuration file, the mountpoint as the only argument. *)
Definition bareFlags : main.Flags.t :=
  main.Flags.mk EmptyString EmptyString false ["/mnt"].

(** A configuration file that is not there. *)
Definition missingFlags : main.Flags.t :=
  main.Flags.mk "missing.yaml" EmptyString false ["/mnt"].

(** Mount options on the command line. *)
Definition optionFlags : main.Flags.t :=
  main.Flags.mk "gitlabfs.yaml" "ro,allow_other" true ["/mnt"].

End sample.

(** * Facts *)

(** ** [newProjectFromGitlabProject] *)

Section ProjectFacts.

Variables PullMethodHTTP PullMethodSSH : string.

Local Abbreviation newProject :=
  (gitlab.newProjectFromGitlabProject PullMethodSSH).

(** C10: the name of the constructed project is the remote project's
    [Path] and its id is the remote id; the remote display name has no
    part in the constructed project. *)
Theorem newProject_Name_is_Path (c : gitlab.gitlabClient.t)
    (project : xanzy.Project.t) :
  gitlab.Project.Name (newProject c project) = xanzy.Project.Path project
  /\ gitlab.Project.ID (newProject c project) = xanzy.Project.ID project
  /\ forall display : string,
       newProject c
         (xanzy.Project.mk (xanzy.Project.ID project) display
            (xanzy.Project.Path project) (xanzy.Project.DefaultBranch project)
            (xanzy.Project.SSHURLToRepo project)
            (xanzy.Project.HTTPURLToRepo project))
       = newProject c project.
Proof.
  unfold gitlab.newProjectFromGitlabProject; cbn.
  repeat split; repeat case_decide; reflexivity.
Qed.

(** C4: an empty remote default branch becomes ["master"], a non-empty
    one is kept unchanged. *)
Theorem newProject_DefaultBranch (c : gitlab.gitlabClient.t)
    (project : xanzy.Project.t) :
  (xanzy.Project.DefaultBranch project = EmptyString ->
   gitlab.Project.DefaultBranch (newProject c project) = "master")
  /\ (xanzy.Project.DefaultBranch project <> EmptyString ->
      gitlab.Project.DefaultBranch (newProject c project)
      = xanzy.Project.DefaultBranch project).
Proof.
  unfold gitlab.newProjectFromGitlabProject; cbn.
  split; intros Hb; repeat case_decide; cbn; congruence.
Qed.

(** C3: the clone URL is decided by the pull method alone: the SSH form
    under the SSH method, the HTTP form under the HTTP method, for every
    project; two clients with the same pull method choose alike. *)
Theorem newProject_CloneURL (Hdistinct : PullMethodHTTP <> PullMethodSSH)
    (c : gitlab.gitlabClient.t) :
  (gitlab.gitlabClient.PullMethod c = PullMethodSSH ->
   forall project,
     gitlab.Project.CloneURL (newProject c project)
     = xanzy.Project.SSHURLToRepo project)
  /\ (gitlab.gitlabClient.PullMethod c = PullMethodHTTP ->
      forall project,
        gitlab.Project.CloneURL (newProject c project)
        = xanzy.Project.HTTPURLToRepo project)
  /\ (forall c' project,
        gitlab.gitlabClient.PullMethod c' = gitlab.gitlabClient.PullMethod c ->
        gitlab.Project.CloneURL (newProject c' project)
        = gitlab.Project.CloneURL (newProject c project)).
Proof.
  unfold gitlab.newProjectFromGitlabProject; cbn.
  repeat split; intros; repeat case_decide; cbn; congruence.
Qed.

End ProjectFacts.

(** ** [FetchUserContent] *)

Section FetchFacts.

Context {W : Type}.
Variable ListUserProjects :
  W -> Z -> xanzy.ListProjectsOptions.t -> W * gitlab.Reply.
Variable NewProjectFromGitlabProject : xanzy.Project.t -> gitlab.Project.t.

Local Abbreviation New := NewProjectFromGitlabProject.
Local Abbreviation name := (entryName NewProjectFromGitlabProject).
Local Abbreviation add := (addProjects NewProjectFromGitlabProject).
Local Abbreviation call :=
  (gitlab.callListUserProjects ListUserProjects).
Local Abbreviation loop :=
  (gitlab.fetchLoop ListUserProjects NewProjectFromGitlabProject).
Local Abbreviation Fetch :=
  (gitlab.FetchUserContent ListUserProjects NewProjectFromGitlabProject).

(** *** The map of a listing *)

Lemma add_app (xs ys : list xanzy.Project.t) (m : gmap string gitlab.Project.t) :
  add (xs ++ ys) m = add ys (add xs m).
Proof. apply fold_left_app. Qed.

Lemma add_cons (gp : xanzy.Project.t) (gps : list xanzy.Project.t)
    (m : gmap string gitlab.Project.t) :
  add (gp :: gps) m = add gps (<[name gp := New gp]> m).
Proof. reflexivity. Qed.

Lemma add_lookup_other (gps : list xanzy.Project.t)
    (m : gmap string gitlab.Project.t) (k : string) :
  (forall q, q ∈ gps -> name q <> k) -> add gps m !! k = m !! k.
Proof.
  revert m; induction gps as [|gp gps IH]; intros m Hk; [reflexivity|].
  rewrite add_cons, IH.
  - apply lookup_insert_ne, Hk. left.
  - intros q Hq. apply Hk. by right.
Qed.

Lemma add_lookup_last (before after : list xanzy.Project.t)
    (gp : xanzy.Project.t) (m : gmap string gitlab.Project.t) :
  (forall q, q ∈ after -> name q <> name gp) ->
  add (before ++ gp :: after) m !! name gp = Some (New gp).
Proof.
  intros Hafter. rewrite add_app, add_cons.
  rewrite add_lookup_other by assumption.
  apply lookup_insert_eq.
Qed.

Lemma add_dom (gps : list xanzy.Project.t) (m : gmap string gitlab.Project.t) :
  dom (add gps m) = dom m ∪ list_to_set (name <$> gps).
Proof.
  revert m; induction gps as [|gp gps IH]; intros m.
  - cbn. by rewrite (right_id_L ∅ (∪)).
  - rewrite add_cons, IH, dom_insert_L, fmap_cons. cbn [list_to_set].
    by rewrite (assoc_L (∪)), (comm_L (∪) (dom m)).
Qed.

Lemma add_lookup_NoDup (gps : list xanzy.Project.t) (gp : xanzy.Project.t)
    (m : gmap string gitlab.Project.t) :
  NoDup (name <$> gps) -> gp ∈ gps -> add gps m !! name gp = Some (New gp).
Proof.
  intros Hnd Hin.
  apply list_elem_of_split in Hin as (before & after & ->).
  apply add_lookup_last. intros q Hq Heq.
  rewrite fmap_app, fmap_cons in Hnd.
  apply NoDup_app in Hnd as (_ & _ & Hnd).
  apply NoDup_cons in Hnd as [Hnotin _].
  apply Hnotin. rewrite <- Heq. by apply list_elem_of_fmap_2.
Qed.

Lemma add_Permutation (gps gps' : list xanzy.Project.t)
    (m : gmap string gitlab.Project.t) :
  NoDup (name <$> gps) -> gps ≡ₚ gps' -> add gps m = add gps' m.
Proof.
  intros Hnd Hperm. apply map_eq; intros k.
  assert (Hnd' : NoDup (name <$> gps')) by (by rewrite <- Hperm).
  destruct (decide (k ∈ name <$> gps)) as [Hin|Hnotin].
  - apply list_elem_of_fmap in Hin as (gp & -> & Hin).
    rewrite !add_lookup_NoDup; try done. by rewrite <- Hperm.
  - rewrite !add_lookup_other; try done.
    + intros q Hq <-. apply Hnotin, list_elem_of_fmap_2. by rewrite Hperm.
    + intros q Hq <-. by apply Hnotin, list_elem_of_fmap_2.
Qed.

(** *** The loop *)

Lemma insert_alter_same (f : gitlab.UserContent.t -> gitlab.UserContent.t)
    (h : list gitlab.UserContent.t) (l : gitlab.loc) (x : gitlab.UserContent.t) :
  <[l := x]> (alter f l h) = <[l := x]> h.
Proof.
  apply list_eq; intros j. destruct (decide (j = l)) as [->|Hne].
  - destruct (decide (l < length h)%nat) as [Hlt|Hge].
    + rewrite !list_lookup_insert_eq; [done..|by rewrite length_alter].
    + rewrite !list_insert_ge; [|lia|rewrite length_alter; lia].
      rewrite list_lookup_alter_eq.
      by rewrite (lookup_ge_None_2 h l) by lia.
  - rewrite !list_lookup_insert_ne by done. by apply list_lookup_alter_ne.
Qed.

Lemma storeProject_fold (l : gitlab.loc) (gps : list xanzy.Project.t)
    (h : list gitlab.UserContent.t) (c : gitlab.UserContent.t) :
  h !! l = Some c ->
  fold_left (gitlab.storeProject New l) gps h
  = <[l := gitlab.UserContent.mk (add gps (gitlab.UserContent.Projects c))]> h.
Proof.
  revert h c; induction gps as [|gp gps IH]; intros h c Hl.
  - cbn. destruct c. by rewrite list_insert_id.
  - cbn [fold_left].
    rewrite (IH _ (gitlab.UserContent.mk
                     (<[name gp := New gp]> (gitlab.UserContent.Projects c)))).
    + unfold gitlab.storeProject. by rewrite insert_alter_same.
    + unfold gitlab.storeProject. by rewrite list_lookup_alter_eq, Hl.
Qed.

Lemma listed_cons (ex : gitlab.Exchange) (tr : list gitlab.Exchange) :
  listed (ex :: tr)
  = match ex.2 with inl (gps, _) => gps | inr _ => [] end ++ listed tr.
Proof. reflexivity. Qed.

Lemma failures_cons (ex : gitlab.Exchange) (tr : list gitlab.Exchange) :
  failures (ex :: tr)
  = match ex.2 with inl _ => [] | inr err => [err] end ++ failures tr.
Proof. reflexivity. Qed.

(** What one run of the loop does, whatever the remote replies. *)
Lemma loop_run (fuel : nat) :
  forall (s : gitlab.State.t W) (uid : Z) (opt : xanzy.ListProjectsOptions.t)
         (l : gitlab.loc) (c : gitlab.UserContent.t)
         (s' : gitlab.State.t W) (ex : option gitlab.LoopExit),
    gitlab.State.heap s !! l = Some c ->
    loop fuel s uid opt l = (s', ex) ->
    exists tr,
      gitlab.State.calls s' = gitlab.State.calls s ++ tr
      /\ gitlab.State.heap s'
         = <[l := gitlab.UserContent.mk
                    (add (listed tr) (gitlab.UserContent.Projects c))]>
             (gitlab.State.heap s)
      /\ (fuel <> 0%nat -> exists reply rest, tr = ((uid, opt), reply) :: rest)
      /\ match ex with
         | None => length tr = fuel /\ Forall announcesMore tr
         | Some gitlab.Break => failures tr = []
         | Some (gitlab.ReturnErr e) =>
           exists err,
             failures tr = [err]
             /\ e = "failed to fetch projects in gitlab: " +:+ err
         end.
Proof.
  induction fuel as [|fuel IH]; intros s uid opt l c s' ex Hl Hrun.
  - cbn in Hrun. injection Hrun as <- <-. exists []. rewrite app_nil_r.
    repeat split; [|done|by constructor].
    cbn. destruct c. by rewrite list_insert_id.
  - cbn in Hrun. unfold gitlab.callListUserProjects in Hrun.
    destruct (ListUserProjects (gitlab.State.remote s) uid opt)
      as [w [[gps response]|err]] eqn:Hcall; cbn in Hrun.
    + rewrite (storeProject_fold _ _ _ _ Hl) in Hrun.
      case_decide as Hlast.
      * injection Hrun as <- <-.
        exists [((uid, opt), inl (gps, response))]. cbn.
        rewrite app_nil_r. repeat split; eauto.
      * eapply IH in Hrun as (tr & Hcalls & Hheap & _ & Hex);
          [|cbn; apply list_lookup_insert_eq; by eapply lookup_lt_Some].
        cbn in Hcalls, Hheap.
        exists (((uid, opt), inl (gps, response)) :: tr).
        rewrite Hcalls, Hheap, <- app_assoc, listed_cons, add_app,
          list_insert_insert_eq.
        repeat split; eauto.
        destruct ex as [[|e]|]; cbn; try done.
        destruct Hex as [<- Hmore]. split; [done|].
        constructor; [|done]. unfold announcesMore; cbn. lia.
    + injection Hrun as <- <-.
      exists [((uid, opt), inr err)]. cbn.
      repeat split; eauto.
      destruct c. by rewrite list_insert_id.
Qed.

Lemma newCalls_app (s s' : gitlab.State.t W) (tr : list gitlab.Exchange) :
  gitlab.State.calls s' = gitlab.State.calls s ++ tr -> newCalls s s' = tr.
Proof. intros Hcalls. unfold newCalls. rewrite Hcalls. apply drop_app_length. Qed.

Lemma setPage_pageRequest (p q : Z) :
  gitlab.setPage (pageRequest p) q = pageRequest q.
Proof. reflexivity. Qed.

(** The loop against a remote that serves [pages], entered at page
    [S i] with [S k] pages to go. *)
Lemma loop_serves (uid : Z) (pages : list (list xanzy.Project.t))
    (l : gitlab.loc) :
  serves ListUserProjects uid pages ->
  forall (k i fuel : nat) (s : gitlab.State.t W),
    (i + S k = length pages)%nat -> (S k <= fuel)%nat ->
    exists s' tr,
      loop fuel s uid (pageRequest (Z.of_nat (S i))) l = (s', Some gitlab.Break)
      /\ gitlab.State.calls s' = gitlab.State.calls s ++ tr
      /\ listed tr = concat (drop i pages)
      /\ tr.*1 = (fun j => (uid, pageRequest (Z.of_nat (S j)))) <$> seq i (S k).
Proof.
  intros Hserves. induction k as [|k IH]; intros i fuel s Hlen Hfuel;
    (destruct fuel as [|fuel]; [lia|]);
    (destruct (lookup_lt_is_Some_2 pages i) as [gps Hi]; [lia|]);
    destruct (Hserves (gitlab.State.remote s) i gps Hi)
      as (w' & response & Hcall & Hcur & Htot & Hnext);
    cbn [gitlab.fetchLoop]; unfold gitlab.callListUserProjects;
    rewrite Hcall; cbn beta iota; case_decide as Hlast; try lia.
  - eexists _, [_]. repeat split.
    cbn. rewrite app_nil_r, (drop_S _ _ _ Hi), drop_ge by lia. cbn.
    by rewrite app_nil_r.
  - rewrite Hnext, setPage_pageRequest by lia.
    edestruct (IH (S i) fuel) as (s' & tr & Hrun & Hcalls & Hlisted & Hreqs);
      [lia|lia|].
    rewrite Hrun. eexists s', (_ :: tr). split; [reflexivity|].
    rewrite Hcalls; cbn [gitlab.State.calls]. rewrite <- app_assoc.
    repeat split.
    + rewrite listed_cons, Hlisted, (drop_S _ _ _ Hi). reflexivity.
    + rewrite fmap_cons, Hreqs. reflexivity.
Qed.

(** What one call does when the user has no cached content, whatever
    the remote replies. *)
Lemma Fetch_run (fuel : nat) (s s' : gitlab.State.t W)
    (user user' : gitlab.User.t) (res : option (gitlab.loc + string)) :
  gitlab.User.content user = None ->
  Fetch fuel s user = (s', user', res) ->
  let tr := newCalls s s' in
  gitlab.State.calls s' = gitlab.State.calls s ++ tr
  /\ (forall l c, gitlab.State.heap s !! l = Some c ->
                 gitlab.State.heap s' !! l = Some c)
  /\ gitlab.State.heap s' !! length (gitlab.State.heap s)
     = Some (gitlab.UserContent.mk (add (listed tr) ∅))
  /\ (fuel <> 0%nat ->
      exists reply rest,
        tr = ((gitlab.User.ID user, gitlab.firstPage), reply) :: rest)
  /\ match res with
     | None => user' = user /\ length tr = fuel /\ Forall announcesMore tr
     | Some (inl l) =>
       l = length (gitlab.State.heap s)
       /\ user' = gitlab.User.mk (gitlab.User.ID user) (gitlab.User.Name user)
                                 (Some l)
       /\ failures tr = []
     | Some (inr e) =>
       user' = user
       /\ exists err,
            failures tr = [err]
            /\ e = "failed to fetch projects in gitlab: " +:+ err
     end.
Proof.
  intros Hnone Hfetch tr. unfold gitlab.FetchUserContent in Hfetch.
  rewrite Hnone in Hfetch.
  match type of Hfetch with
  | context [loop fuel ?s0 ?uid ?opt ?l] =>
    destruct (loop fuel s0 uid opt l) as [s1 ex] eqn:Hloop
  end.
  eapply loop_run in Hloop as (tr' & Hcalls & Hheap & Hfirst & Hex);
    [|cbn; by apply list_lookup_middle].
  cbn in Hcalls, Hheap.
  assert (Hs1 : newCalls s s1 = tr') by (by apply newCalls_app).
  assert (Hkeep : forall l c, gitlab.State.heap s !! l = Some c ->
                    gitlab.State.heap s1 !! l = Some c).
  { intros l c Hl. rewrite Hheap.
    pose proof (lookup_lt_Some _ _ _ Hl).
    rewrite list_lookup_insert_ne by lia. by apply lookup_app_l_Some. }
  assert (Hnew : gitlab.State.heap s1 !! length (gitlab.State.heap s)
                 = Some (gitlab.UserContent.mk (add (listed tr') ∅))).
  { rewrite Hheap. apply list_lookup_insert_eq. rewrite length_app; cbn; lia. }
  destruct ex as [[|e]|]; injection Hfetch as <- <- <-;
    subst tr; rewrite Hs1; repeat split; auto; apply Hex.
Qed.

Lemma Fetch_eta (fuel : nat) (s : gitlab.State.t W) (user : gitlab.User.t) :
  Fetch fuel s user
  = ((Fetch fuel s user).1.1, (Fetch fuel s user).1.2, (Fetch fuel s user).2).
Proof. by destruct (Fetch fuel s user) as [[? ?] ?]. Qed.

Lemma Fetch_heap (fuel : nat) (s : gitlab.State.t W) (user : gitlab.User.t)
    (l : gitlab.loc) :
  gitlab.User.content user = None ->
  (Fetch fuel s user).2 = Some (inl l) ->
  gitlab.State.heap (Fetch fuel s user).1.1 !! l
  = Some (gitlab.UserContent.mk
            (add (listed (newCalls s (Fetch fuel s user).1.1)) ∅)).
Proof.
  intros Hnone Hres.
  destruct (Fetch_run _ _ _ _ _ _ Hnone (Fetch_eta fuel s user))
    as (_ & _ & Hnew & _ & Hout).
  rewrite Hres in Hout. destruct Hout as (-> & _). exact Hnew.
Qed.

(** *** The claims about [FetchUserContent] *)

(** C1 (as the code has it): a listing stores every project under its
    name, so of the projects that share a name only the one listed last
    has an entry, the earlier ones are replaced and no name is made
    distinct; every listed name has an entry.  The listing cannot crash:
    a call returns the content, or returns the error of the remote, or is
    still fetching pages that the remote keeps announcing. *)
Theorem FetchUserContent_same_name_last_wins (fuel : nat)
    (s : gitlab.State.t W) (user : gitlab.User.t) :
  gitlab.User.content user = None ->
  exists s' user' res,
    Fetch fuel s user = (s', user', res)
    /\ let gps := listed (newCalls s s') in
       match res with
       | Some (inl l) =>
         exists m,
           gitlab.State.heap s' !! l = Some (gitlab.UserContent.mk m)
           /\ dom m = list_to_set (name <$> gps)
           /\ (forall before gp after,
                 gps = before ++ gp :: after ->
                 (forall q, q ∈ after -> name q <> name gp) ->
                 m !! name gp = Some (New gp))
           /\ (forall before a between b after,
                 gps = before ++ a :: between ++ b :: after ->
                 name a = name b ->
                 (forall q, q ∈ after -> name q <> name b) ->
                 m !! name a = Some (New b))
       | Some (inr e) =>
         exists err,
           failures (newCalls s s') = [err]
           /\ e = "failed to fetch projects in gitlab: " +:+ err
       | None =>
         length (newCalls s s') = fuel
         /\ Forall announcesMore (newCalls s s')
       end.
Proof.
  intros Hnone.
  destruct (Fetch fuel s user) as [[s' user'] res] eqn:Hfetch.
  exists s', user', res. split; [reflexivity|].
  destruct (Fetch_run _ _ _ _ _ _ Hnone Hfetch)
    as (_ & _ & Hnew & _ & Hres).
  destruct res as [[l|e]|]; cbn zeta.
  - destruct Hres as (-> & _ & _). eexists. split; [exact Hnew|].
    split; [|split].
    + by rewrite add_dom, dom_empty_L, (left_id_L ∅ (∪)).
    + intros before gp after -> Hafter. by apply add_lookup_last.
    + intros before a between b after -> Hname Hafter.
      rewrite Hname.
      replace (before ++ a :: between ++ b :: after)
        with ((before ++ a :: between) ++ b :: after)
        by (by rewrite <- app_assoc).
      by apply add_lookup_last.
  - apply Hres.
  - apply Hres.
Qed.

(** C5: once a call has returned the content, every later call on the
    user returns the same pointer and leaves the state as it is: no call
    of the remote API is made, whatever the state and the fuel. *)
Theorem FetchUserContent_cached (fuel : nat) (s s1 : gitlab.State.t W)
    (user user1 : gitlab.User.t) (l : gitlab.loc) :
  Fetch fuel s user = (s1, user1, Some (inl l)) ->
  forall user2, laterUser ListUserProjects New user1 user2 ->
  forall (fuel2 : nat) (s2 : gitlab.State.t W),
    Fetch fuel2 s2 user2 = (s2, user2, Some (inl l))
    /\ newCalls s2 (Fetch fuel2 s2 user2).1.1 = [].
Proof.
  intros Hfirst.
  assert (Hcached : gitlab.User.content user1 = Some l).
  { destruct (gitlab.User.content user) as [c|] eqn:Hc.
    - unfold gitlab.FetchUserContent in Hfirst. rewrite Hc in Hfirst.
      by injection Hfirst as <- <- <-.
    - destruct (Fetch_run _ _ _ _ _ _ Hc Hfirst)
        as (_ & _ & _ & _ & _ & -> & _).
      reflexivity. }
  assert (Hhit : forall fuel2 (s2 : gitlab.State.t W),
            Fetch fuel2 s2 user1 = (s2, user1, Some (inl l))).
  { intros fuel2 s2. unfold gitlab.FetchUserContent. by rewrite Hcached. }
  assert (Hsame : forall user2,
            laterUser ListUserProjects New user1 user2 -> user2 = user1).
  { intros user2 Hlater. induction Hlater as [|u1 u2 f t t' r _ IH Hcall].
    - reflexivity.
    - subst u1. rewrite Hhit in Hcall. by injection Hcall as _ <- _. }
  intros user2 Hlater fuel2 s2. rewrite (Hsame _ Hlater), Hhit.
  split; [reflexivity|]. unfold newCalls; cbn. apply drop_all.
Qed.

(** C7: when the remote API fails during a call (on whatever page), the
    call returns that error, the user object is as before with no cached
    content (what was fetched of the listing is not kept), the objects
    already on the heap are as before, and a later call starts the fetch
    again from the first page. *)
Theorem FetchUserContent_error (fuel : nat) (s s' : gitlab.State.t W)
    (user user' : gitlab.User.t) (res : option (gitlab.loc + string)) :
  gitlab.User.content user = None ->
  Fetch fuel s user = (s', user', res) ->
  (exists err, err ∈ failures (newCalls s s')) ->
  (exists err,
     failures (newCalls s s') = [err]
     /\ res = Some (inr ("failed to fetch projects in gitlab: " +:+ err)))
  /\ user' = user
  /\ gitlab.User.content user' = None
  /\ (forall l c, gitlab.State.heap s !! l = Some c ->
                 gitlab.State.heap s' !! l = Some c)
  /\ (forall (fuel2 : nat) (s2 : gitlab.State.t W),
        fuel2 <> 0%nat ->
        exists reply rest,
          newCalls s2 (Fetch fuel2 s2 user').1.1
          = ((gitlab.User.ID user, gitlab.firstPage), reply) :: rest).
Proof.
  intros Hnone Hfetch [err0 Herr0].
  destruct (Fetch_run _ _ _ _ _ _ Hnone Hfetch)
    as (_ & Hkeep & _ & _ & Hres).
  assert (Hout : user' = user
                 /\ exists err,
                      failures (newCalls s s') = [err]
                      /\ res = Some (inr ("failed to fetch projects in gitlab: "
                                          +:+ err))).
  { destruct res as [[l|e]|].
    - destruct Hres as (_ & _ & Hno). rewrite Hno in Herr0. inversion Herr0.
    - destruct Hres as (-> & err & Hfail & ->). eauto.
    - destruct Hres as (_ & _ & Hmore). exfalso.
      clear -Hmore Herr0. induction Hmore as [|[req [ok|err]] tr Hx _ IH].
      + inversion Herr0.
      + rewrite failures_cons in Herr0. cbn in Herr0. auto.
      + destruct Hx. }
  destruct Hout as (-> & Herr). repeat split; try done.
  intros fuel2 s2 Hfuel2.
  destruct (Fetch fuel2 s2 user) as [[s3 user3] res3] eqn:Hagain.
  by destruct (Fetch_run _ _ _ _ _ _ Hnone Hagain) as (_ & _ & _ & Hfirst & _);
    apply Hfirst.
Qed.

(** C8 (as the code has it): against a remote that serves the projects
    of the user as a list of pages, a call with no cached content asks
    for every page in turn, once each, and returns the map of all the
    projects listed: every listed name has an entry, that of the project
    listed last under the name.  When the names are pairwise distinct,
    every project has its own entry and the map is the same for every
    order and every split into pages of the same projects. *)
Theorem FetchUserContent_all_pages (pages : list (list xanzy.Project.t))
    (fuel : nat) (s : gitlab.State.t W) (user : gitlab.User.t) :
  serves ListUserProjects (gitlab.User.ID user) pages ->
  pages <> [] ->
  gitlab.User.content user = None ->
  (length pages <= fuel)%nat ->
  exists s' l m,
    Fetch fuel s user
    = (s', gitlab.User.mk (gitlab.User.ID user) (gitlab.User.Name user) (Some l),
       Some (inl l))
    /\ (newCalls s s').*1
       = (fun j => (gitlab.User.ID user, pageRequest (Z.of_nat (S j))))
           <$> seq 0 (length pages)
    /\ listed (newCalls s s') = concat pages
    /\ gitlab.State.heap s' !! l = Some (gitlab.UserContent.mk m)
    /\ m = add (concat pages) ∅
    /\ dom m = list_to_set (name <$> concat pages)
    /\ (forall before gp after,
          concat pages = before ++ gp :: after ->
          (forall q, q ∈ after -> name q <> name gp) ->
          m !! name gp = Some (New gp))
    /\ (NoDup (name <$> concat pages) ->
        (forall gp, gp ∈ concat pages -> m !! name gp = Some (New gp))
        /\ (forall gps', gps' ≡ₚ concat pages -> add gps' ∅ = m)).
Proof.
  intros Hserves Hpages Hnone Hfuel.
  destruct (Fetch fuel s user) as [[s' user'] res] eqn:Hfetch.
  pose proof (Fetch_run _ _ _ _ _ _ Hnone Hfetch)
    as (Hcalls & _ & Hnew & _ & Hres).
  unfold gitlab.FetchUserContent in Hfetch. rewrite Hnone in Hfetch.
  destruct pages as [|page pages']; [done|]. set (pages := page :: pages') in *.
  match type of Hfetch with
  | context [loop fuel ?s0 _ _ ?l0] =>
    destruct (loop_serves _ pages l0 Hserves (length pages') 0%nat fuel s0)
      as (s1 & tr & Hloop & Hcalls1 & Hlisted & Hreqs);
      [reflexivity|exact Hfuel|]
  end.
  change (pageRequest (Z.of_nat 1)) with gitlab.firstPage in Hloop.
  rewrite Hloop in Hfetch. injection Hfetch as <- <- <-.
  cbn [gitlab.State.calls] in Hcalls1.
  rewrite (newCalls_app s s1 tr Hcalls1) in Hnew.
  rewrite drop_0 in Hlisted. rewrite Hlisted in Hnew.
  eexists s1, _, _. split; [reflexivity|].
  rewrite (newCalls_app s s1 tr Hcalls1).
  split; [exact Hreqs|]. split; [exact Hlisted|]. split; [exact Hnew|].
  split; [reflexivity|]. split; [|split; [|split]].
  - by rewrite add_dom, dom_empty_L, (left_id_L ∅ (∪)).
  - intros before gp after -> Hafter. by apply add_lookup_last.
  - intros gp Hin. by apply add_lookup_NoDup.
  - intros gps' Hperm. apply add_Permutation; [|done].
    by rewrite Hperm.
Qed.

End FetchFacts.

(** ** The startup *)

Section StartupFacts.

Variables PullMethodHTTP PullMethodSSH : string.
Variables CloneInit CloneClone : Z.
Variable Getenv : string -> string.
Variable filepath_Join : string -> string -> string.
Variable File : Type.
Variable os_Open : string -> File + string.
Variable yaml_Decode : File -> main.Config.t -> main.Config.t + string.
Variable URL : Type.
Variable url_Parse : string -> URL + string.
Variables GitClient GitlabClient : Type.
Variable git_NewClient_result : git.GitClientParam.t URL -> GitClient.
Variable gitlab_NewClient_result :
  string -> string -> gitlab.GitlabClientParam.t -> GitlabClient.
Variable fs_Start_result :
  string -> list string -> main.FSParam.t GitClient GitlabClient -> bool ->
  option string.

Local Abbreviation loadConfig :=
  (main.loadConfig Getenv filepath_Join File os_Open yaml_Decode).
Local Abbreviation makeGitlabConfig :=
  (main.makeGitlabConfig PullMethodHTTP PullMethodSSH).
Local Abbreviation makeGitConfig :=
  (main.makeGitConfig CloneInit CloneClone URL url_Parse).
Local Abbreviation run :=
  (main.main PullMethodHTTP PullMethodSSH CloneInit CloneClone
     Getenv filepath_Join File os_Open yaml_Decode URL url_Parse
     GitClient GitlabClient
     git_NewClient_result gitlab_NewClient_result fs_Start_result).

Lemma makeGitlabConfig_invalid (config : main.Config.t) :
  main.GitConfig.PullMethod (main.Config.Git config) <> PullMethodHTTP ->
  main.GitConfig.PullMethod (main.Config.Git config) <> PullMethodSSH ->
  makeGitlabConfig config
  = inr (pullMethodMessage PullMethodHTTP PullMethodSSH).
Proof.
  intros Hhttp Hssh. unfold main.makeGitlabConfig.
  case_decide as Hd; [reflexivity|]. destruct Hd. by split.
Qed.

Lemma makeGitConfig_invalid (config : main.Config.t) :
  main.GitConfig.OnClone (main.Config.Git config) <> "init" ->
  main.GitConfig.OnClone (main.Config.Git config) <> "clone" ->
  exists msg,
    makeGitConfig config = inr msg
    /\ (forall u, url_Parse (main.GitlabConfig.URL (main.Config.Gitlab config))
                  = inl u -> msg = onCloneMessage).
Proof.
  intros Hinit Hclone. unfold main.makeGitConfig.
  destruct (url_Parse _) as [u|err].
  - repeat case_decide; try done. eexists; split; [reflexivity|done].
  - eexists; split; [reflexivity|done].
Qed.

Lemma makeGitConfig_QueueSize (config : main.Config.t)
    (p : git.GitClientParam.t URL) :
  makeGitConfig config = inl p ->
  git.GitClientParam.QueueSize p
  = main.GitConfig.QueueSize (main.Config.Git config).
Proof.
  unfold main.makeGitConfig. destruct (url_Parse _); [|done].
  repeat case_decide; intros [= <-]; reflexivity.
Qed.

(** The shape of the run once the configuration is loaded. *)
Lemma run_no_mountpoint (flags : main.Flags.t) (config : main.Config.t) :
  loadConfig (main.Flags.config flags) = inl config ->
  mountpointOf flags config = EmptyString ->
  run flags
  = [main.Println ("Mountpoint is not configured in config file and "
                   +:+ "missing from command-line arguments");
     main.Usage; main.Exit 2].
Proof.
  intros Hload Hmp. unfold main.main. rewrite Hload.
  unfold mountpointOf in Hmp. by rewrite decide_True.
Qed.

Lemma run_git_rejected (flags : main.Flags.t) (config : main.Config.t)
    (err : string) :
  loadConfig (main.Flags.config flags) = inl config ->
  mountpointOf flags config <> EmptyString ->
  makeGitConfig config = inr err ->
  run flags = [main.Println err; main.Exit 1].
Proof.
  intros Hload Hmp Hgit. unfold main.main. rewrite Hload, Hgit.
  unfold mountpointOf in Hmp. by rewrite decide_False.
Qed.

Lemma run_gitlab_rejected (flags : main.Flags.t) (config : main.Config.t)
    (p : git.GitClientParam.t URL) (err : string) :
  loadConfig (main.Flags.config flags) = inl config ->
  mountpointOf flags config <> EmptyString ->
  makeGitConfig config = inl p ->
  makeGitlabConfig config = inr err ->
  run flags = [main.git_NewClient p; main.Println err; main.Exit 1].
Proof.
  intros Hload Hmp Hgit Hgitlab. unfold main.main.
  rewrite Hload, Hgit, Hgitlab.
  unfold mountpointOf in Hmp. by rewrite decide_False.
Qed.

Lemma run_accepted (flags : main.Flags.t) (config : main.Config.t)
    (p : git.GitClientParam.t URL) (q : gitlab.GitlabClientParam.t) :
  loadConfig (main.Flags.config flags) = inl config ->
  mountpointOf flags config <> EmptyString ->
  makeGitConfig config = inl p ->
  makeGitlabConfig config = inl q ->
  exists mountoptions param rest,
    run flags
    = main.git_NewClient p
      :: main.gitlab_NewClient
           (main.GitlabConfig.URL (main.Config.Gitlab config))
           (main.GitlabConfig.Token (main.Config.Gitlab config)) q
      :: main.fs_Start (mountpointOf flags config) mountoptions param
           (main.Flags.debug flags)
      :: rest
    /\ (rest = [] \/ exists err, rest = [main.Println err; main.Exit 1]).
Proof.
  intros Hload Hmp Hgit Hgitlab. unfold main.main.
  rewrite Hload, Hgit, Hgitlab.
  unfold mountpointOf in *. rewrite decide_False by done.
  eexists _, _, _. split; [reflexivity|].
  destruct (fs_Start_result _ _ _ _); eauto.
Qed.

(** C2 (as the code has it): for a loaded configuration, a clone
    strategy that is neither ["init"] nor ["clone"] makes the process
    print one message and exit with a status other than 0 before either
    client or the filesystem is constructed: the message of the missing
    mountpoint (with the usage, status 2) when no mountpoint is given,
    else the error of the URL when the gitlab URL does not parse, else
    the message of [on_clone].  A pull method that is neither of the two
    valid values makes it print one message and exit with a status other
    than 0 before the gitlab client and the filesystem are constructed:
    the message of the missing mountpoint when no mountpoint is given,
    else the error of [makeGitConfig] when the git part of the
    configuration is rejected, else, with the git client constructed
    already, the message that names the two valid pull methods.  The
    queue size is not checked: it is handed to the git client as it is
    configured. *)
Theorem main_rejects_invalid_config (flags : main.Flags.t)
    (config : main.Config.t) :
  loadConfig (main.Flags.config flags) = inl config ->
  (main.GitConfig.OnClone (main.Config.Git config) <> "init" ->
   main.GitConfig.OnClone (main.Config.Git config) <> "clone" ->
   (exists msg code, exitsWith (run flags) msg code /\ code <> 0)
   /\ Forall (fun e => ~ constructsGit e /\ ~ constructsGitlab e
                       /\ ~ startsFilesystem e) (run flags)
   /\ (mountpointOf flags config = EmptyString ->
       run flags
       = [main.Println noMountpointMessage; main.Usage; main.Exit 2])
   /\ (mountpointOf flags config <> EmptyString ->
       forall err,
         url_Parse (main.GitlabConfig.URL (main.Config.Gitlab config))
         = inr err ->
         run flags = [main.Println err; main.Exit 1])
   /\ (mountpointOf flags config <> EmptyString ->
       forall u,
         url_Parse (main.GitlabConfig.URL (main.Config.Gitlab config)) = inl u ->
         run flags = [main.Println onCloneMessage; main.Exit 1]))
  /\ (main.GitConfig.PullMethod (main.Config.Git config) <> PullMethodHTTP ->
      main.GitConfig.PullMethod (main.Config.Git config) <> PullMethodSSH ->
      (exists msg code, exitsWith (run flags) msg code /\ code <> 0)
      /\ Forall (fun e => ~ constructsGitlab e /\ ~ startsFilesystem e)
                (run flags)
      /\ (mountpointOf flags config = EmptyString ->
          run flags
          = [main.Println noMountpointMessage; main.Usage; main.Exit 2])
      /\ (mountpointOf flags config <> EmptyString ->
          forall err,
            makeGitConfig config = inr err ->
            run flags = [main.Println err; main.Exit 1])
      /\ (mountpointOf flags config <> EmptyString ->
          forall p,
            makeGitConfig config = inl p ->
            run flags
            = [main.git_NewClient p;
               main.Println (pullMethodMessage PullMethodHTTP PullMethodSSH);
               main.Exit 1]))
  /\ (forall p,
        makeGitConfig config = inl p ->
        git.GitClientParam.QueueSize p
        = main.GitConfig.QueueSize (main.Config.Git config)).
Proof.
  intros Hload. split; [|split].
  - intros Hinit Hclone.
    destruct (makeGitConfig_invalid config Hinit Hclone) as (msg & Hgit & Hmsg).
    assert (Hurl : forall err,
              url_Parse (main.GitlabConfig.URL (main.Config.Gitlab config))
              = inr err -> msg = err).
    { intros err Herr. unfold main.makeGitConfig in Hgit.
      rewrite Herr in Hgit. by injection Hgit. }
    destruct (decide (mountpointOf flags config = EmptyString)) as [Hmp|Hmp].
    + rewrite (run_no_mountpoint _ _ Hload Hmp).
      split; [|split; [|split; [|split]]]; try done.
      * eexists _, 2. split; [exists []; right; reflexivity|lia].
      * repeat constructor; cbn; tauto.
    + rewrite (run_git_rejected _ _ _ Hload Hmp Hgit).
      split; [|split; [|split; [|split]]]; try done.
      * eexists _, 1. split; [exists []; left; reflexivity|lia].
      * repeat constructor; cbn; tauto.
      * intros _ err Herr. by rewrite (Hurl err Herr).
      * intros _ u Hu. by rewrite (Hmsg u Hu).
  - intros Hhttp Hssh.
    pose proof (makeGitlabConfig_invalid config Hhttp Hssh) as Hgitlab.
    destruct (decide (mountpointOf flags config = EmptyString)) as [Hmp|Hmp].
    + rewrite (run_no_mountpoint _ _ Hload Hmp).
      split; [|split; [|split; [|split]]]; try done.
      * eexists _, 2. split; [exists []; right; reflexivity|lia].
      * repeat constructor; cbn; tauto.
    + destruct (makeGitConfig config) as [p|err] eqn:Hgit.
      * rewrite (run_gitlab_rejected _ _ _ _ Hload Hmp Hgit Hgitlab).
        split; [|split; [|split; [|split]]]; try done.
        -- eexists _, 1.
           split; [exists [main.git_NewClient p]; left; reflexivity|lia].
        -- repeat constructor; cbn; tauto.
        -- by intros _ p' [= <-].
      * rewrite (run_git_rejected _ _ _ Hload Hmp Hgit).
        split; [|split; [|split; [|split]]]; try done.
        -- eexists _, 1. split; [exists []; left; reflexivity|lia].
        -- repeat constructor; cbn; tauto.
        -- by intros _ err' [= <-].
  - apply makeGitConfig_QueueSize.
Qed.

(** C9: the parameter of the gitlab client asks for the current user
    exactly when [include_current_user] is set and the token is not
    empty, so not with an empty token; and it is this parameter that
    [main] constructs the gitlab client with. *)
Theorem makeGitlabConfig_IncludeCurrentUser (config : main.Config.t)
    (p : gitlab.GitlabClientParam.t) :
  makeGitlabConfig config = inl p ->
  (gitlab.GitlabClientParam.IncludeCurrentUser p = true <->
   main.GitlabConfig.IncludeCurrentUser (main.Config.Gitlab config) = true
   /\ main.GitlabConfig.Token (main.Config.Gitlab config) <> EmptyString)
  /\ (main.GitlabConfig.Token (main.Config.Gitlab config) = EmptyString ->
      gitlab.GitlabClientParam.IncludeCurrentUser p = false)
  /\ (forall flags url token p',
        loadConfig (main.Flags.config flags) = inl config ->
        main.gitlab_NewClient url token p' ∈ run flags ->
        p' = p).
Proof.
  intros Hp. split; [|split].
  - unfold main.makeGitlabConfig in Hp. case_decide; [done|].
    injection Hp as <-. cbn.
    rewrite andb_true_iff, bool_decide_eq_true. tauto.
  - intros Htoken. unfold main.makeGitlabConfig in Hp. case_decide; [done|].
    injection Hp as <-. cbn. rewrite Htoken.
    apply andb_false_intro2. by apply bool_decide_eq_false_2; intros [].
  - intros flags url token p' Hload Hin.
    destruct (decide (mountpointOf flags config = EmptyString)) as [Hmp|Hmp].
    { rewrite (run_no_mountpoint _ _ Hload Hmp) in Hin.
      repeat (apply elem_of_cons in Hin as [Hin|Hin]; [done|]).
      by apply elem_of_nil in Hin. }
    destruct (makeGitConfig config) as [g|err] eqn:Hgit.
    + destruct (run_accepted _ _ _ _ Hload Hmp Hgit Hp)
        as (mo & param & rest & Hrun & Hrest).
      rewrite Hrun in Hin.
      apply elem_of_cons in Hin as [Hin|Hin]; [done|].
      apply elem_of_cons in Hin as [Hin|Hin]; [by injection Hin|].
      apply elem_of_cons in Hin as [Hin|Hin]; [done|].
      destruct Hrest as [->|[err ->]].
      * by apply elem_of_nil in Hin.
      * repeat (apply elem_of_cons in Hin as [Hin|Hin]; [done|]).
        by apply elem_of_nil in Hin.
    + rewrite (run_git_rejected _ _ _ Hload Hmp Hgit) in Hin.
      repeat (apply elem_of_cons in Hin as [Hin|Hin]; [done|]).
      by apply elem_of_nil in Hin.
Qed.

End StartupFacts.

(** * The facts at the sample inputs *)

(** ** [newProjectFromGitlabProject] *)

Example convert_demo :
  sample.convert sample.demo
  = gitlab.Project.mk 1 "demo" "git@gitlab.com:ann/demo.git" "main".
Proof. reflexivity. Qed.

Example convert_demoAgain :
  sample.convert sample.demoAgain
  = gitlab.Project.mk 2 "demo" "git@gitlab.com:ann/demo-again.git" "master".
Proof. reflexivity. Qed.

Lemma newProject_DefaultBranch_witness :
  (xanzy.Project.DefaultBranch sample.demoAgain = EmptyString
   /\ gitlab.Project.DefaultBranch
        (gitlab.newProjectFromGitlabProject "ssh" sample.sshClient
           sample.demoAgain) = "master")
  /\ (xanzy.Project.DefaultBranch sample.demo <> EmptyString
      /\ gitlab.Project.DefaultBranch
           (gitlab.newProjectFromGitlabProject "ssh" sample.httpClient
              sample.demo) = "main").
Proof.
  split.
  - split; [reflexivity|].
    apply (newProject_DefaultBranch "ssh" sample.sshClient sample.demoAgain).
    reflexivity.
  - assert (Hne : xanzy.Project.DefaultBranch sample.demo <> EmptyString)
      by (cbn; discriminate).
    split; [exact Hne|].
    apply (newProject_DefaultBranch "ssh" sample.httpClient sample.demo), Hne.
Defined.

Lemma newProject_CloneURL_witness :
  "http" <> "ssh"
  /\ gitlab.Project.CloneURL
       (gitlab.newProjectFromGitlabProject "ssh" sample.sshClient sample.tools)
     = "git@gitlab.com:ann/tools.git"
  /\ gitlab.Project.CloneURL
       (gitlab.newProjectFromGitlabProject "ssh" sample.httpClient sample.tools)
     = "https://gitlab.com/ann/tools.git".
Proof.
  assert (Hne : "http" <> "ssh") by discriminate.
  split; [exact Hne|]. split.
  - apply (newProject_CloneURL "http" "ssh" Hne sample.sshClient). reflexivity.
  - apply (newProject_CloneURL "http" "ssh" Hne sample.httpClient). reflexivity.
Defined.

(** ** [FetchUserContent] *)

Lemma pagedRemote_serves (uid : Z) (pages : list (list xanzy.Project.t)) :
  serves (sample.pagedRemote pages) uid pages.
Proof.
  intros w i gps Hi. eexists w, _. split; [|split; [|split]].
  - unfold sample.pagedRemote, pageRequest; cbn [xanzy.ListOptions.Page
      xanzy.ListProjectsOptions.ListOptions].
    replace (Z.to_nat (Z.of_nat (S i) - 1)) with i by lia.
    by rewrite (nth_lookup_Some _ _ _ _ Hi).
  - reflexivity.
  - reflexivity.
  - intros Hlt. cbn. rewrite decide_True by lia. lia.
Qed.

(** The two projects named ["demo"], listed one after the other, leave
    one entry. *)
Lemma add_demo_twice (first second : xanzy.Project.t) :
  entryName sample.convert first = "demo" ->
  entryName sample.convert second = "demo" ->
  addProjects sample.convert [first; second] ∅
  = {["demo" := sample.convert second]}.
Proof.
  intros Hfirst Hsecond. unfold addProjects; cbn [fold_left].
  rewrite Hfirst, Hsecond, insert_insert_eq. apply insert_empty.
Qed.

Lemma singleton_misses (kept other : gitlab.Project.t) :
  kept <> other ->
  ~ exists k : string,
      ({["demo" := kept]} : gmap string gitlab.Project.t) !! k = Some other.
Proof.
  intros Hne [k Hk]. apply lookup_singleton_Some in Hk as [_ Hk]. done.
Qed.

(** C1, refuted as stated: a listing of one page with two projects of
    the same name returns a content with one entry, under which the
    first of the two projects is not found. *)
Lemma same_name_entry_replaced :
  let r := gitlab.FetchUserContent
             (sample.pagedRemote [[sample.demo; sample.demoAgain]])
             sample.convert 1 (sample.start ()) sample.ann in
  r.2 = Some (inl 0%nat)
  /\ listed (newCalls (sample.start ()) r.1.1) = [sample.demo; sample.demoAgain]
  /\ entryName sample.convert sample.demo
     = entryName sample.convert sample.demoAgain
  /\ exists m,
       gitlab.State.heap r.1.1 !! 0%nat = Some (gitlab.UserContent.mk m)
       /\ size m = 1%nat
       /\ ~ (forall gp, gp ∈ [sample.demo; sample.demoAgain] ->
                        exists k, m !! k = Some (sample.convert gp)).
Proof.
  intros r.
  assert (Hres : r.2 = Some (inl 0%nat)) by (vm_compute; reflexivity).
  assert (Hlisted : listed (newCalls (sample.start ()) r.1.1)
                    = [sample.demo; sample.demoAgain])
    by (vm_compute; reflexivity).
  split; [exact Hres|]. split; [exact Hlisted|]. split; [reflexivity|].
  pose proof (Fetch_heap _ sample.convert 1 (sample.start ()) sample.ann
                0%nat eq_refl Hres) as Hheap.
  fold r in Hheap. rewrite Hlisted, add_demo_twice in Hheap by reflexivity.
  eexists. split; [exact Hheap|]. split; [apply map_size_singleton|].
  intros Hall. apply (singleton_misses (sample.convert sample.demoAgain)
                        (sample.convert sample.demo)); [discriminate|].
  apply Hall. left.
Qed.

Lemma FetchUserContent_same_name_last_wins_witness :
  gitlab.User.content sample.ann = None
  /\ exists s' m,
       (gitlab.FetchUserContent
          (sample.pagedRemote [[sample.demo; sample.demoAgain]])
          sample.convert 1 (sample.start ()) sample.ann).1.1 = s'
       /\ gitlab.State.heap s' !! 0%nat = Some (gitlab.UserContent.mk m)
       /\ m !! "demo" = Some (sample.convert sample.demoAgain).
Proof.
  split; [reflexivity|].
  destruct (FetchUserContent_same_name_last_wins
              (sample.pagedRemote [[sample.demo; sample.demoAgain]])
              sample.convert 1 (sample.start ()) sample.ann eq_refl)
    as (s' & user' & res & Hfetch & Hout).
  assert (Hres : (gitlab.FetchUserContent
                    (sample.pagedRemote [[sample.demo; sample.demoAgain]])
                    sample.convert 1 (sample.start ()) sample.ann).2
                 = Some (inl 0%nat)) by (vm_compute; reflexivity).
  assert (Hlisted : listed (newCalls (sample.start ())
                      (gitlab.FetchUserContent
                         (sample.pagedRemote [[sample.demo; sample.demoAgain]])
                         sample.convert 1 (sample.start ()) sample.ann).1.1)
                    = [] ++ sample.demo :: [] ++ sample.demoAgain :: [])
    by (vm_compute; reflexivity).
  rewrite Hfetch in Hres, Hlisted. cbn [fst snd] in Hres, Hlisted. subst res.
  destruct Hout as (m & Hheap & _ & _ & Hsame).
  exists s', m. split; [by rewrite Hfetch|]. split; [exact Hheap|].
  apply (Hsame _ _ _ _ _ Hlisted); [reflexivity|].
  intros q Hq. by apply elem_of_nil in Hq.
Defined.

Lemma FetchUserContent_cached_witness :
  let r := gitlab.FetchUserContent
             (sample.pagedRemote [[sample.demo]; [sample.tools]])
             sample.convert 2 (sample.start ()) sample.ann in
  r = (r.1.1, r.1.2, Some (inl 0%nat))
  /\ forall (fuel2 : nat) (s2 : gitlab.State.t unit),
       gitlab.FetchUserContent
         (sample.pagedRemote [[sample.demo]; [sample.tools]])
         sample.convert fuel2 s2 r.1.2
       = (s2, r.1.2, Some (inl 0%nat)).
Proof.
  intros r.
  assert (Hfirst : r = (r.1.1, r.1.2, Some (inl 0%nat)))
    by (vm_compute; reflexivity).
  split; [exact Hfirst|]. intros fuel2 s2.
  apply (FetchUserContent_cached _ _ _ _ _ _ _ _ Hfirst r.1.2); constructor.
Defined.

(** The remote fails the second call, which asks for the second page. *)
Lemma FetchUserContent_error_witness :
  let r := gitlab.FetchUserContent
             (sample.flakyRemote [[sample.demo]; [sample.tools]] 1)
             sample.convert 5 (sample.start 0%nat) sample.ann in
  gitlab.User.content sample.ann = None
  /\ "503 Service Unavailable" ∈ failures (newCalls (sample.start 0%nat) r.1.1)
  /\ (exists err,
        failures (newCalls (sample.start 0%nat) r.1.1) = [err]
        /\ r.2 = Some (inr ("failed to fetch projects in gitlab: " +:+ err)))
  /\ r.1.2 = sample.ann
  /\ gitlab.User.content r.1.2 = None.
Proof.
  intros r.
  assert (Hfail : "503 Service Unavailable"
                  ∈ failures (newCalls (sample.start 0%nat) r.1.1))
    by (vm_compute; left).
  split; [reflexivity|]. split; [exact Hfail|].
  destruct (FetchUserContent_error
              (sample.flakyRemote [[sample.demo]; [sample.tools]] 1)
              sample.convert 5 (sample.start 0%nat) r.1.1 sample.ann r.1.2 r.2
              eq_refl
              (Fetch_eta _ sample.convert 5 (sample.start 0%nat) sample.ann)
              (ex_intro (fun err => err ∈ failures
                                          (newCalls (sample.start 0%nat) r.1.1))
                        "503 Service Unavailable" Hfail))
    as (Herr & Huser & Hnone & _).
  auto.
Defined.

(** After that failure the next call fetches both pages and caches them. *)
Example retry_after_error :
  let r := gitlab.FetchUserContent
             (sample.flakyRemote [[sample.demo]; [sample.tools]] 1)
             sample.convert 5 (sample.start 0%nat) sample.ann in
  let r' := gitlab.FetchUserContent
              (sample.flakyRemote [[sample.demo]; [sample.tools]] 1)
              sample.convert 5 r.1.1 r.1.2 in
  r'.2 = Some (inl 1%nat)
  /\ gitlab.User.content r'.1.2 = Some 1%nat
  /\ listed (newCalls r.1.1 r'.1.1) = [sample.demo; sample.tools].
Proof. vm_compute. repeat split. Qed.

(** C8, refuted as stated: with the two projects named ["demo"] on two
    pages, the content returned has no entry for the one on the first
    page; and with the two pages in the other order the content is a
    different one. *)
Lemma same_name_across_pages :
  let pages := [[sample.demo]; [sample.demoAgain]] in
  let pages' := [[sample.demoAgain]; [sample.demo]] in
  let r := gitlab.FetchUserContent (sample.pagedRemote pages)
             sample.convert 2 (sample.start ()) sample.ann in
  let r' := gitlab.FetchUserContent (sample.pagedRemote pages')
              sample.convert 2 (sample.start ()) sample.ann in
  serves (sample.pagedRemote pages) (gitlab.User.ID sample.ann) pages
  /\ serves (sample.pagedRemote pages') (gitlab.User.ID sample.ann) pages'
  /\ concat pages ≡ₚ concat pages'
  /\ r.2 = Some (inl 0%nat) /\ r'.2 = Some (inl 0%nat)
  /\ exists m m',
       gitlab.State.heap r.1.1 !! 0%nat = Some (gitlab.UserContent.mk m)
       /\ gitlab.State.heap r'.1.1 !! 0%nat = Some (gitlab.UserContent.mk m')
       /\ ~ (forall gp, gp ∈ concat pages ->
                        exists k, m !! k = Some (sample.convert gp))
       /\ m <> m'.
Proof.
  intros pages pages' r r'.
  assert (Hres : r.2 = Some (inl 0%nat)) by (vm_compute; reflexivity).
  assert (Hres' : r'.2 = Some (inl 0%nat)) by (vm_compute; reflexivity).
  assert (Hlisted : listed (newCalls (sample.start ()) r.1.1)
                    = [sample.demo; sample.demoAgain])
    by (vm_compute; reflexivity).
  assert (Hlisted' : listed (newCalls (sample.start ()) r'.1.1)
                     = [sample.demoAgain; sample.demo])
    by (vm_compute; reflexivity).
  pose proof (Fetch_heap _ sample.convert 2 (sample.start ()) sample.ann
                0%nat eq_refl Hres) as Hheap.
  pose proof (Fetch_heap _ sample.convert 2 (sample.start ()) sample.ann
                0%nat eq_refl Hres') as Hheap'.
  fold r in Hheap. fold r' in Hheap'.
  rewrite Hlisted, add_demo_twice in Hheap by reflexivity.
  rewrite Hlisted', add_demo_twice in Hheap' by reflexivity.
  split; [apply pagedRemote_serves|]. split; [apply pagedRemote_serves|].
  split; [apply Permutation_swap|]. split; [exact Hres|]. split; [exact Hres'|].
  eexists _, _. split; [exact Hheap|]. split; [exact Hheap'|]. split.
  - intros Hall. apply (singleton_misses (sample.convert sample.demoAgain)
                          (sample.convert sample.demo)); [discriminate|].
    apply Hall. left.
  - intros Heq. apply (f_equal (fun m => m !! "demo")) in Heq.
    rewrite !lookup_singleton_eq in Heq. discriminate.
Qed.

Lemma FetchUserContent_all_pages_witness :
  let pages := [[sample.demo]; [sample.tools]] in
  serves (sample.pagedRemote pages) (gitlab.User.ID sample.ann) pages
  /\ pages <> []
  /\ gitlab.User.content sample.ann = None
  /\ (length pages <= 2)%nat
  /\ exists s' l m,
       gitlab.FetchUserContent (sample.pagedRemote pages) sample.convert 2
         (sample.start ()) sample.ann
       = (s', gitlab.User.mk 7 "ann" (Some l), Some (inl l))
       /\ (newCalls (sample.start ()) s').*1
          = [(7, pageRequest 1); (7, pageRequest 2)]
       /\ gitlab.State.heap s' !! l = Some (gitlab.UserContent.mk m)
       /\ m !! "demo" = Some (sample.convert sample.demo)
       /\ m !! "tools" = Some (sample.convert sample.tools).
Proof.
  intros pages.
  assert (Hserves : serves (sample.pagedRemote pages)
                      (gitlab.User.ID sample.ann) pages)
    by apply pagedRemote_serves.
  assert (Hpages : pages <> []) by discriminate.
  assert (Hfuel : (length pages <= 2)%nat) by (cbn; lia).
  split; [exact Hserves|]. split; [exact Hpages|]. split; [reflexivity|].
  split; [exact Hfuel|].
  destruct (FetchUserContent_all_pages _ sample.convert pages 2
              (sample.start ()) sample.ann Hserves Hpages eq_refl Hfuel)
    as (s' & l & m & Hfetch & Hreqs & _ & Hheap & _ & _ & _ & Hdistinct).
  exists s', l, m. split; [exact Hfetch|]. split; [exact Hreqs|].
  split; [exact Hheap|].
  destruct Hdistinct as [Hown _].
  - cbn. apply (bool_decide_unpack _). vm_compute. exact I.
  - split.
    + apply (Hown sample.demo). left.
    + apply (Hown sample.tools). right; left.
Defined.

(** ** The startup *)

Lemma exitsWith_last {URL GitClient GitlabClient : Type}
    (tr : list (main.Event URL GitClient GitlabClient))
    (msg : string) (code : Z) :
  exitsWith tr msg code -> last tr = Some (main.Exit code).
Proof.
  intros [pre [-> | ->]]; by rewrite last_app.
Qed.

(** With the clone strategy and the pull method both invalid, the
    message is the one of the check that comes first. *)
Example run_both_invalid :
  sample.run (sample.config "git" "fetch" EmptyString 200) sample.flags
  = [main.Println onCloneMessage; main.Exit 1].
Proof. reflexivity. Qed.

Example run_defaults_without_token :
  main.makeGitlabConfig "http" "ssh"
    (sample.config "http" "init" EmptyString 200)
  = inl (gitlab.GitlabClientParam.mk "http" false).
Proof. reflexivity. Qed.

(** C2, refuted as stated: a configuration with the queue size 0 is
    accepted, both clients are constructed and the filesystem is started
    with no exit; and with an invalid pull method the git client is
    constructed before the process exits. *)
Lemma queue_size_unchecked :
  let zeroQueue := sample.config "http" "init" EmptyString 0 in
  let badPull := sample.config "git" "init" EmptyString 10 in
  (main.GitConfig.QueueSize (main.Config.Git zeroQueue) <= 0
   /\ main.loadConfig sample.Getenv sample.Join main.Config.t
        (sample.Open zeroQueue) sample.Decode
        (main.Flags.config sample.flags) = inl zeroQueue
   /\ ~ (exists msg code,
           exitsWith (sample.run zeroQueue sample.flags) msg code)
   /\ Exists constructsGit (sample.run zeroQueue sample.flags)
   /\ Exists startsFilesystem (sample.run zeroQueue sample.flags))
  /\ (main.GitConfig.PullMethod (main.Config.Git badPull) <> "http"
      /\ main.GitConfig.PullMethod (main.Config.Git badPull) <> "ssh"
      /\ main.loadConfig sample.Getenv sample.Join main.Config.t
           (sample.Open badPull) sample.Decode
           (main.Flags.config sample.flags) = inl badPull
      /\ Exists constructsGit (sample.run badPull sample.flags)).
Proof.
  intros zeroQueue badPull. split.
  - split; [cbn; lia|]. split; [reflexivity|]. split; [|split].
    + intros (msg & code & Hexit). apply exitsWith_last in Hexit.
      vm_compute in Hexit. discriminate.
    + vm_compute. apply Exists_cons_hd. exact I.
    + vm_compute. do 2 apply Exists_cons_tl. apply Exists_cons_hd. exact I.
  - split; [cbn; discriminate|]. split; [cbn; discriminate|].
    split; [reflexivity|].
    vm_compute. apply Exists_cons_hd. exact I.
Qed.

Lemma main_rejects_invalid_config_witness :
  let badClone := sample.config "http" "fetch" EmptyString 200 in
  let badPull := sample.config "git" "init" EmptyString 200 in
  (main.loadConfig sample.Getenv sample.Join main.Config.t
     (sample.Open badClone) sample.Decode (main.Flags.config sample.flags)
   = inl badClone
   /\ sample.run badClone sample.flags
      = [main.Println onCloneMessage; main.Exit 1])
  /\ (main.loadConfig sample.Getenv sample.Join main.Config.t
        (sample.Open badPull) sample.Decode (main.Flags.config sample.flags)
      = inl badPull
      /\ exists p,
           sample.run badPull sample.flags
           = [main.git_NewClient p;
              main.Println (pullMethodMessage "http" "ssh"); main.Exit 1]).
Proof.
  intros badClone badPull. split.
  - assert (Hload : main.loadConfig sample.Getenv sample.Join main.Config.t
                      (sample.Open badClone) sample.Decode
                      (main.Flags.config sample.flags) = inl badClone)
      by reflexivity.
    split; [exact Hload|].
    destruct (main_rejects_invalid_config "http" "ssh" 0 1
                sample.Getenv sample.Join main.Config.t
                (sample.Open badClone) sample.Decode string sample.Parse
                (git.GitClientParam.t string) gitlab.gitlabClient.t
                (fun p => p) (fun _ _ p => gitlab.gitlabClient.mk p)
                (fun _ _ _ _ => None) sample.flags badClone Hload)
      as (Hclone & _ & _).
    destruct Hclone as (_ & _ & _ & _ & Hrun); [discriminate|discriminate|].
    apply (Hrun ltac:(vm_compute; discriminate) "https://gitlab.com").
    reflexivity.
  - assert (Hload : main.loadConfig sample.Getenv sample.Join main.Config.t
                      (sample.Open badPull) sample.Decode
                      (main.Flags.config sample.flags) = inl badPull)
      by reflexivity.
    split; [exact Hload|].
    destruct (main_rejects_invalid_config "http" "ssh" 0 1
                sample.Getenv sample.Join main.Config.t
                (sample.Open badPull) sample.Decode string sample.Parse
                (git.GitClientParam.t string) gitlab.gitlabClient.t
                (fun p => p) (fun _ _ p => gitlab.gitlabClient.mk p)
                (fun _ _ _ _ => None) sample.flags badPull Hload)
      as (_ & Hpull & _).
    destruct Hpull as (_ & _ & _ & _ & Hrun); [discriminate|discriminate|].
    eexists. apply (Hrun ltac:(vm_compute; discriminate)). reflexivity.
Defined.

Lemma makeGitlabConfig_IncludeCurrentUser_witness :
  let config := sample.config "ssh" "init" "glpat-token" 200 in
  let p := gitlab.GitlabClientParam.mk "ssh" true in
  main.makeGitlabConfig "http" "ssh" config = inl p
  /\ (gitlab.GitlabClientParam.IncludeCurrentUser p = true <->
      main.GitlabConfig.IncludeCurrentUser (main.Config.Gitlab config) = true
      /\ main.GitlabConfig.Token (main.Config.Gitlab config) <> EmptyString).
Proof.
  intros config p.
  assert (Hp : main.makeGitlabConfig "http" "ssh" config = inl p)
    by reflexivity.
  split; [exact Hp|].
  apply (makeGitlabConfig_IncludeCurrentUser "http" "ssh" 0 1
           sample.Getenv sample.Join main.Config.t
           (sample.Open config) sample.Decode string sample.Parse
           (git.GitClientParam.t string) gitlab.gitlabClient.t
           (fun p => p) (fun _ _ p => gitlab.gitlabClient.mk p)
           (fun _ _ _ _ => None) config p Hp).
Defined.

(** * Further facts *)

(** ** [newProjectFromGitlabProject] *)

Section ProjectMore.

Variable PullMethodSSH : string.

Local Abbreviation newProject :=
  (gitlab.newProjectFromGitlabProject PullMethodSSH).

(** X1: a constructed project never has an empty default branch. *)
Theorem newProject_DefaultBranch_nonempty (c : gitlab.gitlabClient.t)
    (project : xanzy.Project.t) :
  gitlab.Project.DefaultBranch (newProject c project) <> EmptyString.
Proof.
  unfold gitlab.newProjectFromGitlabProject; cbn.
  repeat case_decide; cbn; done.
Qed.

(** X2: every pull method other than the SSH one, a string that is no
    pull method included, yields the HTTP form of the clone URL. *)
Theorem newProject_CloneURL_fallback (c : gitlab.gitlabClient.t)
    (project : xanzy.Project.t) :
  gitlab.gitlabClient.PullMethod c <> PullMethodSSH ->
  gitlab.Project.CloneURL (newProject c project)
  = xanzy.Project.HTTPURLToRepo project.
Proof.
  intros Hne. unfold gitlab.newProjectFromGitlabProject; cbn.
  repeat case_decide; cbn; done.
Qed.

End ProjectMore.

Lemma newProject_CloneURL_fallback_witness :
  gitlab.gitlabClient.PullMethod
    (gitlab.gitlabClient.mk (gitlab.GitlabClientParam.mk "rsync" false))
  <> "ssh"
  /\ gitlab.Project.CloneURL
       (gitlab.newProjectFromGitlabProject "ssh"
          (gitlab.gitlabClient.mk (gitlab.GitlabClientParam.mk "rsync" false))
          sample.tools)
     = "https://gitlab.com/ann/tools.git".
Proof.
  assert (Hne : gitlab.gitlabClient.PullMethod
                  (gitlab.gitlabClient.mk
                     (gitlab.GitlabClientParam.mk "rsync" false)) <> "ssh")
    by (cbn; discriminate).
  split; [exact Hne|].
  apply (newProject_CloneURL_fallback "ssh" _ sample.tools Hne).
Defined.

(** ** [FetchUserContent] *)

Section FetchMore.

Context {W : Type}.
Variable ListUserProjects :
  W -> Z -> xanzy.ListProjectsOptions.t -> W * gitlab.Reply.
Variable NewProjectFromGitlabProject : xanzy.Project.t -> gitlab.Project.t.

Local Abbreviation New := NewProjectFromGitlabProject.
Local Abbreviation name := (entryName NewProjectFromGitlabProject).
Local Abbreviation add := (addProjects NewProjectFromGitlabProject).
Local Abbreviation loop :=
  (gitlab.fetchLoop ListUserProjects NewProjectFromGitlabProject).
Local Abbreviation Fetch :=
  (gitlab.FetchUserContent ListUserProjects NewProjectFromGitlabProject).

(** The calls of one run of the loop and how the run ends. *)
Lemma loop_shape (fuel : nat) :
  forall (s : gitlab.State.t W) (uid : Z) (opt : xanzy.ListProjectsOptions.t)
         (l : gitlab.loc) (s' : gitlab.State.t W)
         (ex : option gitlab.LoopExit),
    loop fuel s uid opt l = (s', ex) ->
    exists tr,
      gitlab.State.calls s' = gitlab.State.calls s ++ tr
      /\ follows uid opt tr
      /\ match ex with
         | None => True
         | Some gitlab.Break =>
           exists init req gps response,
             tr = init ++ [(req, inl (gps, response))]
             /\ Forall announcesMore init
             /\ xanzy.Response.CurrentPage response
                >= xanzy.Response.TotalPages response
         | Some (gitlab.ReturnErr e) =>
           exists init req err,
             tr = init ++ [(req, inr err)]
             /\ Forall announcesMore init
             /\ e = "failed to fetch projects in gitlab: " +:+ err
         end.
Proof.
  induction fuel as [|fuel IH]; intros s uid opt l s' ex Hrun.
  - cbn in Hrun. injection Hrun as <- <-. exists [].
    by rewrite app_nil_r.
  - cbn in Hrun. unfold gitlab.callListUserProjects in Hrun.
    destruct (ListUserProjects (gitlab.State.remote s) uid opt)
      as [w [[gps response]|err]] eqn:Hcall; cbn in Hrun.
    + case_decide as Hlast.
      * injection Hrun as <- <-.
        exists [((uid, opt), inl (gps, response))]. cbn.
        rewrite decide_True by done. repeat split.
        by exists [], (uid, opt), gps, response.
      * apply IH in Hrun as (tr & Hcalls & Hfollows & Hex).
        cbn in Hcalls.
        exists (((uid, opt), inl (gps, response)) :: tr).
        rewrite Hcalls, <- app_assoc. split; [reflexivity|]. split.
        { cbn. by rewrite decide_False. }
        assert (Hmore : announcesMore ((uid, opt), inl (gps, response)))
          by (unfold announcesMore; cbn; lia).
        destruct ex as [[|e]|]; [| |done].
        -- destruct Hex as (init & req & gps' & response' & -> & Hinit & Hfin).
           exists (((uid, opt), inl (gps, response)) :: init), req, gps',
             response'.
           repeat split; [by constructor|done].
        -- destruct Hex as (init & req & err & -> & Hinit & ->).
           exists (((uid, opt), inl (gps, response)) :: init), req, err.
           repeat split. by constructor.
    + injection Hrun as <- <-.
      exists [((uid, opt), inr err)]. cbn. repeat split.
      by exists [], (uid, opt), err.
Qed.

Lemma follows_requests (uid : Z) (tr : list gitlab.Exchange) :
  forall opt : xanzy.ListProjectsOptions.t,
    follows uid opt tr ->
    Forall (fun ex : gitlab.Exchange =>
              ex.1.1 = uid
              /\ xanzy.ListOptions.PerPage
                   (xanzy.ListProjectsOptions.ListOptions ex.1.2)
                 = xanzy.ListOptions.PerPage
                     (xanzy.ListProjectsOptions.ListOptions opt)) tr.
Proof.
  induction tr as [|[req reply] tr IH]; intros opt Hf; [constructor|].
  destruct Hf as [Hreq Hrest]. cbn in Hreq, Hrest. subst req.
  constructor; [done|].
  destruct reply as [[gps response]|err].
  - case_decide; [subst tr; constructor|]. apply (IH _ Hrest).
  - subst tr; constructor.
Qed.

Lemma Fetch_shape (fuel : nat) (s : gitlab.State.t W) (user : gitlab.User.t) :
  gitlab.User.content user = None ->
  let tr := newCalls s (Fetch fuel s user).1.1 in
  follows (gitlab.User.ID user) gitlab.firstPage tr
  /\ match (Fetch fuel s user).2 with
     | None => True
     | Some (inl _) =>
       exists init req gps response,
         tr = init ++ [(req, inl (gps, response))]
         /\ Forall announcesMore init
         /\ xanzy.Response.CurrentPage response
            >= xanzy.Response.TotalPages response
     | Some (inr e) =>
       exists init req err,
         tr = init ++ [(req, inr err)]
         /\ Forall announcesMore init
         /\ e = "failed to fetch projects in gitlab: " +:+ err
     end.
Proof.
  intros Hnone. unfold gitlab.FetchUserContent. rewrite Hnone.
  match goal with
  | |- context [loop fuel ?s0 ?uid ?opt ?l] =>
    destruct (loop fuel s0 uid opt l) as [s1 ex] eqn:Hloop
  end.
  apply loop_shape in Hloop as (tr & Hcalls & Hfollows & Hex).
  cbn [gitlab.State.calls] in Hcalls.
  destruct ex as [[|e]|]; cbn [fst snd];
    rewrite (newCalls_app s s1 tr Hcalls); by split.
Qed.

Lemma Fetch_heap_exact (fuel : nat) (s : gitlab.State.t W)
    (user : gitlab.User.t) :
  gitlab.User.content user = None ->
  gitlab.State.heap (Fetch fuel s user).1.1
  = gitlab.State.heap s
    ++ [gitlab.UserContent.mk
          (add (listed (newCalls s (Fetch fuel s user).1.1)) ∅)].
Proof.
  intros Hnone. unfold gitlab.FetchUserContent. rewrite Hnone.
  match goal with
  | |- context [loop fuel ?s0 ?uid ?opt ?l] =>
    destruct (loop fuel s0 uid opt l) as [s1 ex] eqn:Hloop
  end.
  eapply loop_run in Hloop as (tr & Hcalls & Hheap & _);
    [|cbn; by apply list_lookup_middle].
  cbn in Hcalls, Hheap.
  assert (Hs1 : gitlab.State.heap s1
                = gitlab.State.heap s
                  ++ [gitlab.UserContent.mk (add (listed tr) ∅)]).
  { rewrite Hheap, insert_app_r_alt, Nat.sub_diag by lia. reflexivity. }
  destruct ex as [[|e]|]; cbn [fst snd];
    by rewrite (newCalls_app s s1 tr Hcalls).
Qed.

Lemma add_lookup_Some (gps : list xanzy.Project.t) :
  forall (m : gmap string gitlab.Project.t) (k : string) (p : gitlab.Project.t),
    add gps m !! k = Some p ->
    m !! k = Some p \/ exists gp, gp ∈ gps /\ name gp = k /\ New gp = p.
Proof.
  induction gps as [|gp gps IH]; intros m k p Hk; [by left|].
  rewrite add_cons in Hk. apply IH in Hk as [Hk|(q & Hq & Hname & Hnew)].
  - apply lookup_insert_Some in Hk as [[<- <-]|[_ Hk]]; [|by left].
    right. exists gp. split; [left|done].
  - right. exists q. split; [by right|done].
Qed.

Lemma add_size (gps : list xanzy.Project.t) :
  forall m : gmap string gitlab.Project.t,
    (size (add gps m) <= size m + length gps)%nat.
Proof.
  induction gps as [|gp gps IH]; intros m; [cbn; lia|].
  rewrite add_cons. etrans; [apply IH|]. rewrite map_size_insert.
  destruct (m !! name gp); cbn; lia.
Qed.

(** X3: whatever the remote replies, a call asks the user's id for page
    1 with 1000 entries a page, then for the page each reply names as
    the next one, always for the same id and page size; it asks nothing
    after a reply that is a last page or an error, and nothing at all
    when the content is cached. *)
Theorem FetchUserContent_requests (fuel : nat) (s : gitlab.State.t W)
    (user : gitlab.User.t) :
  let tr := newCalls s (Fetch fuel s user).1.1 in
  follows (gitlab.User.ID user) gitlab.firstPage tr
  /\ Forall (fun ex : gitlab.Exchange =>
               ex.1.1 = gitlab.User.ID user
               /\ xanzy.ListOptions.PerPage
                    (xanzy.ListProjectsOptions.ListOptions ex.1.2) = 1000) tr
  /\ (is_Some (gitlab.User.content user) -> tr = []).
Proof.
  intros tr.
  assert (Hfollows : follows (gitlab.User.ID user) gitlab.firstPage tr).
  { destruct (gitlab.User.content user) as [c|] eqn:Hc.
    - subst tr. unfold gitlab.FetchUserContent, newCalls. rewrite Hc. cbn.
      by rewrite drop_all.
    - by apply Fetch_shape. }
  split; [exact Hfollows|]. split.
  - apply (follows_requests _ _ _ Hfollows).
  - intros [c Hc]. subst tr.
    unfold gitlab.FetchUserContent, newCalls. rewrite Hc. cbn.
    apply drop_all.
Qed.


(** X5: when the reply to the first request does not announce a further
    page (its current page is not below its total, as with a total of 0),
    the call makes this one request and caches the projects of this one
    page, whatever next page the reply names. *)
Theorem FetchUserContent_single_page (fuel : nat) (s : gitlab.State.t W)
    (user : gitlab.User.t) (w' : W) (gps : list xanzy.Project.t)
    (response : xanzy.Response.t) :
  gitlab.User.content user = None ->
  ListUserProjects (gitlab.State.remote s) (gitlab.User.ID user)
    gitlab.firstPage = (w', inl (gps, response)) ->
  xanzy.Response.CurrentPage response >= xanzy.Response.TotalPages response ->
  Fetch (S fuel) s user
  = (gitlab.State.mk w'
       (gitlab.State.calls s
        ++ [((gitlab.User.ID user, gitlab.firstPage), inl (gps, response))])
       (gitlab.State.heap s ++ [gitlab.UserContent.mk (add gps ∅)]),
     gitlab.User.mk (gitlab.User.ID user) (gitlab.User.Name user)
       (Some (length (gitlab.State.heap s))),
     Some (inl (length (gitlab.State.heap s)))).
Proof.
  intros Hnone Hcall Hlast. unfold gitlab.FetchUserContent. rewrite Hnone.
  cbn [gitlab.fetchLoop]. unfold gitlab.callListUserProjects.
  cbn [gitlab.State.remote gitlab.State.calls gitlab.State.heap].
  rewrite Hcall. cbn beta iota. rewrite decide_True by done.
  rewrite (storeProject_fold New _ gps _ (gitlab.UserContent.mk ∅))
    by (by apply list_lookup_middle).
  cbn [gitlab.State.remote gitlab.State.calls gitlab.State.heap
       gitlab.UserContent.Projects].
  rewrite insert_app_r_alt, Nat.sub_diag by lia. reflexivity.
Qed.

(** X6: the loop has no bound of its own: against a remote whose every
    reply announces a further page, a call without cached content never
    returns, making one more request with each unit of fuel. *)
Theorem FetchUserContent_endless (user : gitlab.User.t) :
  (forall w opt, exists w' gps response,
      ListUserProjects w (gitlab.User.ID user) opt = (w', inl (gps, response))
      /\ xanzy.Response.CurrentPage response
         < xanzy.Response.TotalPages response) ->
  gitlab.User.content user = None ->
  forall (fuel : nat) (s : gitlab.State.t W),
    (Fetch fuel s user).2 = None
    /\ length (newCalls s (Fetch fuel s user).1.1) = fuel.
Proof.
  intros Hmore Hnone fuel s.
  assert (Hloop : forall fuel (s0 : gitlab.State.t W) opt l,
            (loop fuel s0 (gitlab.User.ID user) opt l).2 = None).
  { clear fuel s. induction fuel as [|fuel IH]; intros s0 opt l; [done|].
    cbn [gitlab.fetchLoop]. unfold gitlab.callListUserProjects.
    destruct (Hmore (gitlab.State.remote s0) opt)
      as (w' & gps & response & -> & Hlt).
    cbn beta iota. rewrite decide_False by lia. apply IH. }
  assert (Hres : (Fetch fuel s user).2 = None).
  { unfold gitlab.FetchUserContent. rewrite Hnone.
    match goal with
    | |- context [loop fuel ?s0 ?uid ?opt ?l] =>
      pose proof (Hloop fuel s0 opt l) as Hn;
        destruct (loop fuel s0 uid opt l) as [s1 ex]
    end.
    cbn in Hn. by subst ex. }
  split; [exact Hres|].
  destruct (Fetch_run _ _ _ _ _ _ _ _ Hnone
              (Fetch_eta ListUserProjects New fuel s user))
    as (_ & _ & _ & _ & Hout).
  rewrite Hres in Hout. apply Hout.
Qed.



(** X9: no call, cached or not, successful or not, changes an object
    that is on the heap already or takes an entry off the record of API
    calls; it puts at most one new object on the heap, and the id and the
    name of the user stay as they are. *)
Theorem FetchUserContent_grows_only (fuel : nat) (s : gitlab.State.t W)
    (user : gitlab.User.t) :
  let s' := (Fetch fuel s user).1.1 in
  let user' := (Fetch fuel s user).1.2 in
  gitlab.State.calls s `prefix_of` gitlab.State.calls s'
  /\ gitlab.State.heap s `prefix_of` gitlab.State.heap s'
  /\ (length (gitlab.State.heap s') <= S (length (gitlab.State.heap s)))%nat
  /\ gitlab.User.ID user' = gitlab.User.ID user
  /\ gitlab.User.Name user' = gitlab.User.Name user.
Proof.
  destruct (gitlab.User.content user) as [c|] eqn:Hc.
  - unfold gitlab.FetchUserContent. rewrite Hc. cbn.
    repeat split; try done. lia.
  - cbn zeta.
    destruct (Fetch_run _ _ _ _ _ _ _ _ Hc
                (Fetch_eta ListUserProjects New fuel s user))
      as (Hcalls & _ & _ & _ & Hout).
    rewrite (Fetch_heap_exact fuel s user Hc).
    split; [rewrite Hcalls; by apply prefix_app_r|].
    split; [by apply prefix_app_r|].
    split; [rewrite length_app; cbn; lia|].
    destruct ((Fetch fuel s user).2) as [[l|e]|].
    + destruct Hout as (_ & -> & _). done.
    + destruct Hout as (-> & _). done.
    + destruct Hout as (-> & _). done.
Qed.

End FetchMore.


(** The remote has two pages but leaves the total out of its header:
    the call stops after the first page. *)
Lemma FetchUserContent_single_page_witness :
  let response := xanzy.Response.mk 1 0 2 in
  sample.headerlessRemote () 7 gitlab.firstPage
  = ((), inl ([sample.demo], response))
  /\ xanzy.Response.CurrentPage response >= xanzy.Response.TotalPages response
  /\ gitlab.FetchUserContent sample.headerlessRemote sample.convert 3
       (sample.start ()) sample.ann
     = (gitlab.State.mk ()
          [((7, gitlab.firstPage), inl ([sample.demo], response))]
          [gitlab.UserContent.mk (addProjects sample.convert [sample.demo] ∅)],
        gitlab.User.mk 7 "ann" (Some 0%nat), Some (inl 0%nat)).
Proof.
  intros response.
  assert (Hcall : sample.headerlessRemote () 7 gitlab.firstPage
                  = ((), inl ([sample.demo], response))) by reflexivity.
  assert (Hlast : xanzy.Response.CurrentPage response
                  >= xanzy.Response.TotalPages response) by (cbn; lia).
  split; [exact Hcall|]. split; [exact Hlast|].
  apply (FetchUserContent_single_page sample.headerlessRemote sample.convert
           2 (sample.start ()) sample.ann () [sample.demo] response
           eq_refl Hcall Hlast).
Defined.

Lemma FetchUserContent_endless_witness :
  (forall w opt, exists w' gps response,
      sample.endlessRemote w (gitlab.User.ID sample.ann) opt
      = (w', inl (gps, response))
      /\ xanzy.Response.CurrentPage response
         < xanzy.Response.TotalPages response)
  /\ (gitlab.FetchUserContent sample.endlessRemote sample.convert 4
        (sample.start ()) sample.ann).2 = None
  /\ length (newCalls (sample.start ())
               (gitlab.FetchUserContent sample.endlessRemote sample.convert 4
                  (sample.start ()) sample.ann).1.1) = 4%nat.
Proof.
  assert (Hmore : forall w opt, exists w' gps response,
             sample.endlessRemote w (gitlab.User.ID sample.ann) opt
             = (w', inl (gps, response))
             /\ xanzy.Response.CurrentPage response
                < xanzy.Response.TotalPages response).
  { intros w opt. eexists _, _, _. split; [reflexivity|]. cbn. lia. }
  split; [exact Hmore|].
  apply (FetchUserContent_endless sample.endlessRemote sample.convert
           sample.ann Hmore eq_refl 4%nat (sample.start ())).
Defined.



(** ** [FetchUser] and [FetchCurrentUser] *)

Section UsersMore.

Context {W : Type}.
Variable GetUser : W -> Z -> W * (xanzy.User.t + string).
Variable CurrentUser : W -> W * (xanzy.User.t + string).
Variable ListUserProjects :
  W -> Z -> xanzy.ListProjectsOptions.t -> W * gitlab.Reply.
Variable NewProjectFromGitlabProject : xanzy.Project.t -> gitlab.Project.t.

Local Abbreviation Fetch :=
  (gitlab.FetchUserContent ListUserProjects NewProjectFromGitlabProject).

(** X10: a user returned by [FetchUser] or [FetchCurrentUser] carries
    the id and the user name (not the display name) that the remote
    gave and no cached content; the heap and the record of listing calls
    are as before; and the first [FetchUserContent] on that user, given
    fuel, asks the remote for page 1 of the projects of the id the remote
    gave, whatever has been cached in other user objects. *)
Theorem fetched_user_is_fresh (s s1 : gitlab.State.t W)
    (user : gitlab.User.t) :
  (exists uid, gitlab.FetchUser GetUser s uid = (s1, inl user))
  \/ gitlab.FetchCurrentUser CurrentUser s = (s1, inl user) ->
  (exists remoteUser,
     ((exists uid, (GetUser (gitlab.State.remote s) uid).2 = inl remoteUser)
      \/ (CurrentUser (gitlab.State.remote s)).2 = inl remoteUser)
     /\ gitlab.User.ID user = xanzy.User.ID remoteUser
     /\ gitlab.User.Name user = xanzy.User.Username remoteUser)
  /\ gitlab.User.content user = None
  /\ gitlab.State.calls s1 = gitlab.State.calls s
  /\ gitlab.State.heap s1 = gitlab.State.heap s
  /\ forall (fuel : nat) (s2 : gitlab.State.t W),
       exists reply rest,
         newCalls s2 (Fetch (S fuel) s2 user).1.1
         = ((gitlab.User.ID user, gitlab.firstPage), reply) :: rest.
Proof.
  intros Hfetched.
  assert (Hmade : exists remoteUser,
            ((exists uid,
                (GetUser (gitlab.State.remote s) uid).2 = inl remoteUser)
             \/ (CurrentUser (gitlab.State.remote s)).2 = inl remoteUser)
            /\ user = gitlab.NewUserFromGitlabUser remoteUser
            /\ gitlab.State.calls s1 = gitlab.State.calls s
            /\ gitlab.State.heap s1 = gitlab.State.heap s).
  { destruct Hfetched as [[uid Hf]|Hf].
    - unfold gitlab.FetchUser in Hf.
      destruct (GetUser (gitlab.State.remote s) uid) as [w [gu|err]] eqn:Hget;
        [|done].
      injection Hf as <- <-. exists gu. split; [|done].
      left. exists uid. by rewrite Hget.
    - unfold gitlab.FetchCurrentUser in Hf.
      destruct (CurrentUser (gitlab.State.remote s)) as [w [gu|err]] eqn:Hget;
        [|done].
      injection Hf as <- <-. exists gu. split; [|done].
      by right. }
  destruct Hmade as (gu & Hfrom & -> & Hcalls & Hheap).
  split; [by exists gu|]. split; [reflexivity|].
  split; [exact Hcalls|]. split; [exact Hheap|].
  intros fuel s2.
  destruct (Fetch_run ListUserProjects NewProjectFromGitlabProject
              (S fuel) s2 _ (gitlab.NewUserFromGitlabUser gu) _ _ eq_refl
              (Fetch_eta ListUserProjects NewProjectFromGitlabProject
                 (S fuel) s2 (gitlab.NewUserFromGitlabUser gu)))
    as (_ & _ & _ & Hfirst & _).
  by apply Hfirst.
Qed.

End UsersMore.

Lemma fetched_user_is_fresh_witness :
  gitlab.FetchUser sample.userRemote (sample.start ()) 7
  = (sample.start (), inl sample.ann)
  /\ gitlab.User.content sample.ann = None
  /\ exists reply rest,
       newCalls (sample.start ())
         (gitlab.FetchUserContent
            (sample.pagedRemote [[sample.demo]; [sample.tools]])
            sample.convert 1 (sample.start ()) sample.ann).1.1
       = ((7, gitlab.firstPage), reply) :: rest.
Proof.
  assert (Hfetch : gitlab.FetchUser sample.userRemote (sample.start ()) 7
                   = (sample.start (), inl sample.ann)) by reflexivity.
  split; [exact Hfetch|].
  destruct (fetched_user_is_fresh sample.userRemote
              (fun w => sample.userRemote w 7)
              (sample.pagedRemote [[sample.demo]; [sample.tools]])
              sample.convert (sample.start ()) (sample.start ()) sample.ann
              (or_introl (ex_intro _ 7 Hfetch)))
    as (_ & Hnone & _ & _ & Hfirst).
  split; [exact Hnone|]. apply (Hfirst 0%nat (sample.start ())).
Defined.

(** ** Splitting the mount options *)

Lemma append_cons (ch : ascii) (s t : string) :
  String ch s +:+ t = String ch (s +:+ t).
Proof. reflexivity. Qed.

Lemma append_nil_r (s : string) : s +:+ EmptyString = s.
Proof.
  induction s as [|ch s IH]; [done|]. by rewrite append_cons, IH.
Qed.

Lemma append_assoc (s t u : string) : (s +:+ t) +:+ u = s +:+ t +:+ u.
Proof.
  induction s as [|ch s IH]; [done|]. by rewrite !append_cons, IH.
Qed.

Lemma occursIn_append (ch : ascii) (s t : string) :
  occursIn ch (s +:+ t) <-> occursIn ch s \/ occursIn ch t.
Proof.
  induction s as [|c s IH].
  - change (EmptyString +:+ t) with t. cbn. tauto.
  - rewrite append_cons. cbn. rewrite IH. tauto.
Qed.

Lemma splitFrom_nonempty (sep : ascii) (s : string) :
  forall field, main.splitFrom sep field s <> [].
Proof.
  induction s as [|ch s IH]; intros field; cbn; [done|].
  case_decide; [done|apply IH].
Qed.

Lemma strings_Join_cons (field : string) (rest : list string) (sep : ascii) :
  rest <> [] ->
  strings_Join (field :: rest) sep
  = field +:+ String sep (strings_Join rest sep).
Proof. by destruct rest. Qed.

Lemma strings_Join_splitFrom (sep : ascii) (s : string) :
  forall field,
    strings_Join (main.splitFrom sep field s) sep = field +:+ s.
Proof.
  induction s as [|ch s IH]; intros field; cbn [main.splitFrom].
  - cbn. by rewrite append_nil_r.
  - case_decide as Hsep.
    + rewrite strings_Join_cons by apply splitFrom_nonempty.
      rewrite IH. by subst ch.
    + rewrite IH, append_assoc. reflexivity.
Qed.

Lemma splitFrom_fields (sep : ascii) (s : string) :
  forall field,
    ~ occursIn sep field ->
    Forall (fun f => ~ occursIn sep f) (main.splitFrom sep field s).
Proof.
  induction s as [|ch s IH]; intros field Hfield; cbn [main.splitFrom].
  - by constructor.
  - case_decide as Hsep.
    + constructor; [done|]. apply IH. cbn. tauto.
    + apply IH. rewrite occursIn_append. cbn. intros [?|[?|[]]]; done.
Qed.

(** ** The startup *)

Section StartupMore.

Variables PullMethodHTTP PullMethodSSH : string.
Variables CloneInit CloneClone : Z.
Variable Getenv : string -> string.
Variable filepath_Join : string -> string -> string.
Variable File : Type.
Variable os_Open : string -> File + string.
Variable yaml_Decode : File -> main.Config.t -> main.Config.t + string.
Variable URL : Type.
Variable url_Parse : string -> URL + string.
Variables GitClient GitlabClient : Type.
Variable git_NewClient_result : git.GitClientParam.t URL -> GitClient.
Variable gitlab_NewClient_result :
  string -> string -> gitlab.GitlabClientParam.t -> GitlabClient.
Variable fs_Start_result :
  string -> list string -> main.FSParam.t GitClient GitlabClient -> bool ->
  option string.

Local Abbreviation loadConfig :=
  (main.loadConfig Getenv filepath_Join File os_Open yaml_Decode).
Local Abbreviation makeGitlabConfig :=
  (main.makeGitlabConfig PullMethodHTTP PullMethodSSH).
Local Abbreviation makeGitConfig :=
  (main.makeGitConfig CloneInit CloneClone URL url_Parse).
Local Abbreviation run :=
  (main.main PullMethodHTTP PullMethodSSH CloneInit CloneClone
     Getenv filepath_Join File os_Open yaml_Decode URL url_Parse
     GitClient GitlabClient
     git_NewClient_result gitlab_NewClient_result fs_Start_result).
Local Abbreviation paramOf config p q :=
  (main.FSParam.mk (git_NewClient_result p)
     (gitlab_NewClient_result
        (main.GitlabConfig.URL (main.Config.Gitlab config))
        (main.GitlabConfig.Token (main.Config.Gitlab config)) q)
     (main.GitlabConfig.GroupIDs (main.Config.Gitlab config))
     (main.GitlabConfig.UserIDs (main.Config.Gitlab config))).
Local Abbreviation startedWith flags config p q :=
  [main.git_NewClient p;
   main.gitlab_NewClient
     (main.GitlabConfig.URL (main.Config.Gitlab config))
     (main.GitlabConfig.Token (main.Config.Gitlab config)) q;
   main.fs_Start (mountpointOf flags config)
     (parsedMountoptionsOf flags config) (paramOf config p q)
     (main.Flags.debug flags)].
Local Abbreviation startError flags config p q :=
  (fs_Start_result (mountpointOf flags config)
     (parsedMountoptionsOf flags config) (paramOf config p q)
     (main.Flags.debug flags)).

Lemma run_load_failed (flags : main.Flags.t) (err : string) :
  loadConfig (main.Flags.config flags) = inr err ->
  run flags = [main.Println err; main.Exit 1].
Proof. intros Hload. unfold main.main. by rewrite Hload. Qed.

Lemma run_accepted_exact (flags : main.Flags.t) (config : main.Config.t)
    (p : git.GitClientParam.t URL) (q : gitlab.GitlabClientParam.t) :
  loadConfig (main.Flags.config flags) = inl config ->
  mountpointOf flags config <> EmptyString ->
  makeGitConfig config = inl p ->
  makeGitlabConfig config = inl q ->
  run flags
  = startedWith flags config p q
    ++ match startError flags config p q with
       | Some err => [main.Println err; main.Exit 1]
       | None => []
       end.
Proof.
  intros Hload Hmp Hgit Hgitlab. unfold main.main.
  rewrite Hload, Hgit, Hgitlab.
  unfold mountpointOf in Hmp. rewrite decide_False by done. reflexivity.
Qed.

(** The five ways a run can go. *)
Lemma run_cases (flags : main.Flags.t) :
  (exists err,
     loadConfig (main.Flags.config flags) = inr err
     /\ run flags = [main.Println err; main.Exit 1])
  \/ exists config,
       loadConfig (main.Flags.config flags) = inl config
       /\ ((mountpointOf flags config = EmptyString
            /\ run flags
               = [main.Println noMountpointMessage; main.Usage; main.Exit 2])
           \/ (mountpointOf flags config <> EmptyString
               /\ ((exists err,
                      makeGitConfig config = inr err
                      /\ run flags = [main.Println err; main.Exit 1])
                   \/ exists p,
                        makeGitConfig config = inl p
                        /\ ((exists err,
                               makeGitlabConfig config = inr err
                               /\ run flags
                                  = [main.git_NewClient p; main.Println err;
                                     main.Exit 1])
                            \/ exists q,
                                 makeGitlabConfig config = inl q
                                 /\ run flags
                                    = startedWith flags config p q
                                      ++ match startError flags config p q with
                                         | Some err =>
                                           [main.Println err; main.Exit 1]
                                         | None => []
                                         end)))).
Proof.
  destruct (loadConfig (main.Flags.config flags)) as [config|err] eqn:Hload;
    [right; exists config; split; [reflexivity|]
    |left; exists err; split; [reflexivity|by apply run_load_failed]].
  destruct (decide (mountpointOf flags config = EmptyString)) as [Hmp|Hmp];
    [left; split; [done|]|right; split; [done|]].
  { by apply (run_no_mountpoint PullMethodHTTP PullMethodSSH CloneInit
                CloneClone Getenv filepath_Join File os_Open yaml_Decode URL
                url_Parse GitClient GitlabClient git_NewClient_result
                gitlab_NewClient_result fs_Start_result flags config). }
  destruct (makeGitConfig config) as [p|err] eqn:Hgit;
    [right; exists p; split; [reflexivity|]
    |left; exists err; split; [reflexivity|]].
  2: { by apply (run_git_rejected PullMethodHTTP PullMethodSSH CloneInit
                   CloneClone Getenv filepath_Join File os_Open yaml_Decode
                   URL url_Parse GitClient GitlabClient git_NewClient_result
                   gitlab_NewClient_result fs_Start_result flags config). }
  destruct (makeGitlabConfig config) as [q|err] eqn:Hgitlab;
    [right; exists q; split; [reflexivity|]
    |left; exists err; split; [reflexivity|]].
  - by apply run_accepted_exact.
  - by apply (run_gitlab_rejected PullMethodHTTP PullMethodSSH CloneInit
                CloneClone Getenv filepath_Join File os_Open yaml_Decode URL
                url_Parse GitClient GitlabClient git_NewClient_result
                gitlab_NewClient_result fs_Start_result flags config).
Qed.

Ltac run_case flags :=
  let err := fresh "err" in
  let config := fresh "config" in
  let p := fresh "p" in
  let q := fresh "q" in
  let Hload := fresh "Hload" in
  let Hmp := fresh "Hmp" in
  let Hgit := fresh "Hgit" in
  let Hgitlab := fresh "Hgitlab" in
  let Hrun := fresh "Hrun" in
  destruct (run_cases flags)
    as [(err & Hload & Hrun)
       |(config & Hload &
         [[Hmp Hrun]
         |[Hmp [(err & Hgit & Hrun)
               |(p & Hgit & [(err & Hgitlab & Hrun)
                            |(q & Hgitlab & Hrun)])]]])];
  [| | | |destruct (startError flags config p q) eqn:?].

Lemma makeGitConfig_inl_iff (config : main.Config.t) :
  (exists p, makeGitConfig config = inl p) <->
  (exists u, url_Parse (main.GitlabConfig.URL (main.Config.Gitlab config))
             = inl u)
  /\ (main.GitConfig.OnClone (main.Config.Git config) = "init"
      \/ main.GitConfig.OnClone (main.Config.Git config) = "clone").
Proof.
  unfold main.makeGitConfig.
  destruct (url_Parse _) as [u|err].
  - repeat case_decide; split.
    + intros _. split; [by exists u|by left].
    + intros _. by eexists.
    + intros _. split; [by exists u|by right].
    + intros _. by eexists.
    + by intros [p Hp].
    + by intros [_ [?|?]].
  - split; [by intros [p Hp]|by intros [[u Hu] _]].
Qed.

Lemma makeGitlabConfig_inl_iff (config : main.Config.t) :
  (exists q, makeGitlabConfig config = inl q) <->
  main.GitConfig.PullMethod (main.Config.Git config) = PullMethodHTTP
  \/ main.GitConfig.PullMethod (main.Config.Git config) = PullMethodSSH.
Proof.
  unfold main.makeGitlabConfig. case_decide as Hbad; split.
  - by intros [q Hq].
  - intros [?|?]; tauto.
  - intros _.
    destruct (decide (main.GitConfig.PullMethod (main.Config.Git config)
                      = PullMethodHTTP)); [by left|].
    destruct (decide (main.GitConfig.PullMethod (main.Config.Git config)
                      = PullMethodSSH)); [by right|].
    destruct Hbad. by split.
  - intros _. by eexists.
Qed.

(** X11: [makeGitConfig] accepts a configuration exactly when the
    gitlab URL parses and the clone strategy is ["init"] or ["clone"]; an
    error of the URL comes before the one of the clone strategy; an
    accepted configuration is copied field by field, with the clone
    method [CloneInit] for ["init"] and [CloneClone] for ["clone"]. *)
Theorem makeGitConfig_accepts (config : main.Config.t) :
  ((exists p, makeGitConfig config = inl p) <->
   (exists u, url_Parse (main.GitlabConfig.URL (main.Config.Gitlab config))
              = inl u)
   /\ (main.GitConfig.OnClone (main.Config.Git config) = "init"
       \/ main.GitConfig.OnClone (main.Config.Git config) = "clone"))
  /\ (forall err,
        url_Parse (main.GitlabConfig.URL (main.Config.Gitlab config)) = inr err ->
        makeGitConfig config = inr err)
  /\ (forall p,
        makeGitConfig config = inl p ->
        url_Parse (main.GitlabConfig.URL (main.Config.Gitlab config))
        = inl (git.GitClientParam.RemoteURL p)
        /\ (main.GitConfig.OnClone (main.Config.Git config) = "init" ->
            git.GitClientParam.CloneMethod p = CloneInit)
        /\ (main.GitConfig.OnClone (main.Config.Git config) = "clone" ->
            git.GitClientParam.CloneMethod p = CloneClone)
        /\ git.GitClientParam.CloneLocation p
           = main.GitConfig.CloneLocation (main.Config.Git config)
        /\ git.GitClientParam.RemoteName p
           = main.GitConfig.Remote (main.Config.Git config)
        /\ git.GitClientParam.AutoPull p
           = main.GitConfig.AutoPull (main.Config.Git config)
        /\ git.GitClientParam.PullDepth p
           = main.GitConfig.Depth (main.Config.Git config)
        /\ git.GitClientParam.QueueSize p
           = main.GitConfig.QueueSize (main.Config.Git config)
        /\ git.GitClientParam.QueueWorkerCount p
           = main.GitConfig.QueueWorkerCount (main.Config.Git config)).
Proof.
  split; [apply makeGitConfig_inl_iff|]. split.
  - intros err Herr. unfold main.makeGitConfig. by rewrite Herr.
  - intros p. unfold main.makeGitConfig.
    destruct (url_Parse _) as [u|err]; [|done].
    repeat case_decide; intros [= <-]; cbn; repeat split; congruence.
Qed.

(** X12: [makeGitlabConfig] accepts a configuration exactly when the
    pull method is one of the two valid values, and hands that pull
    method on unchanged. *)
Theorem makeGitlabConfig_accepts (config : main.Config.t) :
  ((exists q, makeGitlabConfig config = inl q) <->
   main.GitConfig.PullMethod (main.Config.Git config) = PullMethodHTTP
   \/ main.GitConfig.PullMethod (main.Config.Git config) = PullMethodSSH)
  /\ (forall q,
        makeGitlabConfig config = inl q ->
        gitlab.GitlabClientParam.PullMethod q
        = main.GitConfig.PullMethod (main.Config.Git config)).
Proof.
  split; [apply makeGitlabConfig_inl_iff|].
  intros q. unfold main.makeGitlabConfig. case_decide; [done|].
  by intros [= <-].
Qed.

(** X13: the filesystem is started exactly when the configuration
    loads, a mountpoint is given, the gitlab URL parses, the clone
    strategy is valid and the pull method is valid. *)
Theorem main_starts_filesystem_iff (flags : main.Flags.t) :
  Exists startsFilesystem (run flags) <->
  exists config,
    loadConfig (main.Flags.config flags) = inl config
    /\ mountpointOf flags config <> EmptyString
    /\ (exists u, url_Parse (main.GitlabConfig.URL (main.Config.Gitlab config))
                  = inl u)
    /\ (main.GitConfig.OnClone (main.Config.Git config) = "init"
        \/ main.GitConfig.OnClone (main.Config.Git config) = "clone")
    /\ (main.GitConfig.PullMethod (main.Config.Git config) = PullMethodHTTP
        \/ main.GitConfig.PullMethod (main.Config.Git config) = PullMethodSSH).
Proof.
  split.
  - intros Hstarted.
    run_case flags; rewrite Hrun in Hstarted;
      try (repeat (apply Exists_cons in Hstarted as [Hstarted|Hstarted];
                   [done|]);
           by apply Exists_nil in Hstarted).
    + exists config. split; [done|]. split; [done|].
      destruct (proj1 (makeGitConfig_inl_iff config) (ex_intro _ p Hgit))
        as [Hurl Hclone].
      split; [done|]. split; [done|].
      apply makeGitlabConfig_inl_iff. by exists q.
    + exists config. split; [done|]. split; [done|].
      destruct (proj1 (makeGitConfig_inl_iff config) (ex_intro _ p Hgit))
        as [Hurl Hclone].
      split; [done|]. split; [done|].
      apply makeGitlabConfig_inl_iff. by exists q.
  - intros (config & Hload & Hmp & Hurl & Hclone & Hpull).
    destruct (proj2 (makeGitConfig_inl_iff config) (conj Hurl Hclone))
      as [p Hgit].
    destruct (proj2 (makeGitlabConfig_inl_iff config) Hpull) as [q Hgitlab].
    rewrite (run_accepted_exact _ _ _ _ Hload Hmp Hgit Hgitlab).
    cbn. do 2 apply Exists_cons_tl. by apply Exists_cons_hd.
Qed.

Ltac at_index i H :=
  destruct i as [|[|[|[|[|i]]]]]; cbn in H; simplify_eq; cbn.

(** X14: in every run the clients and the filesystem come in one order
    and once each: a git client is constructed only as the first event, a
    gitlab client only as the second, after a git client, and the
    filesystem is started only as the third, after both. *)
Theorem main_construction_order (flags : main.Flags.t) (i : nat)
    (e : main.Event URL GitClient GitlabClient) :
  run flags !! i = Some e ->
  (constructsGit e -> i = 0%nat)
  /\ (constructsGitlab e ->
      i = 1%nat /\ exists p, run flags !! 0%nat = Some (main.git_NewClient p))
  /\ (startsFilesystem e ->
      i = 2%nat
      /\ (exists p, run flags !! 0%nat = Some (main.git_NewClient p))
      /\ (exists url token q,
            run flags !! 1%nat = Some (main.gitlab_NewClient url token q))).
Proof.
  intros Hi.
  run_case flags; rewrite Hrun in Hi |- *; at_index i Hi;
    repeat split; try done; eauto.
Qed.

(** X15: once [flag.Parse()] has returned with the command line
    accepted (an exit of [flag.Parse] itself, as for a flag that is not
    defined or for [-h], is not part of the run), [main] exits at most
    once, as the last event, with status 1 or 2, and after printing a
    message. *)
Theorem main_exit_is_last (flags : main.Flags.t) (code : Z) :
  exits (run flags) code ->
  (code = 1 \/ code = 2)
  /\ last (run flags) = Some (main.Exit code)
  /\ (exists msg, main.Println msg ∈ run flags)
  /\ (forall i c, run flags !! i = Some (main.Exit c) ->
                  S i = length (run flags)).
Proof.
  unfold exits. intros Hexit.
  run_case flags; rewrite Hrun in Hexit |- *; cbn in Hexit |- *;
    repeat (apply elem_of_cons in Hexit as [Hexit|Hexit];
            [simplify_eq|]);
    try (by apply elem_of_nil in Hexit);
    (split; [auto|]); (split; [reflexivity|]);
    (split; [eexists; rewrite !elem_of_cons; eauto 6|]);
    intros i c Hi; at_index i Hi; done.
Qed.


(** X17: [main] returns without an exit exactly when the configuration
    is accepted, the filesystem was started and [fs.Start] returned no
    error; an error of [fs.Start] is printed and ends the process with
    status 1. *)
Theorem main_returns_iff (flags : main.Flags.t) :
  ((forall code, ~ exits (run flags) code) <->
   exists config p q,
     loadConfig (main.Flags.config flags) = inl config
     /\ mountpointOf flags config <> EmptyString
     /\ makeGitConfig config = inl p
     /\ makeGitlabConfig config = inl q
     /\ startError flags config p q = None)
  /\ (forall config p q err,
        loadConfig (main.Flags.config flags) = inl config ->
        mountpointOf flags config <> EmptyString ->
        makeGitConfig config = inl p ->
        makeGitlabConfig config = inl q ->
        startError flags config p q = Some err ->
        run flags
        = startedWith flags config p q ++ [main.Println err; main.Exit 1]).
Proof.
  unfold exits. split; [split|].
  - intros Hnone.
    run_case flags;
      try (exfalso; rewrite Hrun in Hnone;
           first [apply (Hnone 1);
                  rewrite ?elem_of_app, !elem_of_cons; by auto 8
                 |apply (Hnone 2);
                  rewrite ?elem_of_app, !elem_of_cons; by auto 8]).
    by exists config, p, q.
  - intros (config & p & q & Hload & Hmp & Hgit & Hgitlab & Hstart) code.
    rewrite (run_accepted_exact _ _ _ _ Hload Hmp Hgit Hgitlab), Hstart.
    cbn. rewrite !elem_of_cons, elem_of_nil. intros [?|[?|[?|[]]]]; done.
  - intros config p q err Hload Hmp Hgit Hgitlab Hstart.
    by rewrite (run_accepted_exact _ _ _ _ Hload Hmp Hgit Hgitlab), Hstart.
Qed.

Lemma fs_Start_in_run (flags : main.Flags.t) (mountpoint : string)
    (mountoptions : list string)
    (param : main.FSParam.t GitClient GitlabClient) (debug : bool) :
  main.fs_Start mountpoint mountoptions param debug ∈ run flags ->
  exists config p q,
    loadConfig (main.Flags.config flags) = inl config
    /\ mountpointOf flags config <> EmptyString
    /\ makeGitConfig config = inl p
    /\ makeGitlabConfig config = inl q
    /\ mountpoint = mountpointOf flags config
    /\ mountoptions = parsedMountoptionsOf flags config
    /\ param = paramOf config p q
    /\ debug = main.Flags.debug flags.
Proof.
  intros Hin.
  run_case flags; rewrite Hrun in Hin; cbn in Hin;
    repeat (apply elem_of_cons in Hin as [Hin|Hin]; [simplify_eq|]);
    try (by apply elem_of_nil in Hin);
    by exists config, p, q.
Qed.

(** X18: the filesystem is started at the only positional argument when
    there is exactly one, else at the mountpoint of the configuration,
    never at an empty mountpoint; with the debug flag of the command
    line, the group and user ids of the configuration, and the two
    clients made from the parameters that [makeGitConfig] and
    [makeGitlabConfig] returned, the gitlab one for the configured URL
    and token. *)
Theorem main_fs_Start_arguments (flags : main.Flags.t) (mountpoint : string)
    (mountoptions : list string)
    (param : main.FSParam.t GitClient GitlabClient) (debug : bool) :
  main.fs_Start mountpoint mountoptions param debug ∈ run flags ->
  exists config p q,
    loadConfig (main.Flags.config flags) = inl config
    /\ makeGitConfig config = inl p
    /\ makeGitlabConfig config = inl q
    /\ mountpoint <> EmptyString
    /\ (forall arg, main.Flags.args flags = [arg] -> mountpoint = arg)
    /\ (length (main.Flags.args flags) <> 1%nat ->
        mountpoint = main.FSConfig.Mountpoint (main.Config.FS config))
    /\ debug = main.Flags.debug flags
    /\ main.FSParam.Git param = git_NewClient_result p
    /\ main.FSParam.Gitlab param
       = gitlab_NewClient_result
           (main.GitlabConfig.URL (main.Config.Gitlab config))
           (main.GitlabConfig.Token (main.Config.Gitlab config)) q
    /\ main.FSParam.RootGroupIds param
       = main.GitlabConfig.GroupIDs (main.Config.Gitlab config)
    /\ main.FSParam.UserIds param
       = main.GitlabConfig.UserIDs (main.Config.Gitlab config).
Proof.
  intros Hin.
  destruct (fs_Start_in_run _ _ _ _ _ Hin)
    as (config & p & q & Hload & Hmp & Hgit & Hgitlab & -> & -> & -> & ->).
  exists config, p, q. repeat split; try done.
  - intros arg Hargs. unfold mountpointOf. rewrite Hargs. reflexivity.
  - intros Hargs. unfold mountpointOf. by rewrite decide_False.
Qed.

(** X19: the mount options the filesystem is started with are those of
    the [-o] flag when it is given, else those of the configuration,
    split at the commas: none when the option string is empty; otherwise
    at least one field, no field holding a comma, and the fields joined
    by commas being the option string again. *)
Theorem main_mount_options (flags : main.Flags.t) (config : main.Config.t)
    (mountpoint : string) (mountoptions : list string)
    (param : main.FSParam.t GitClient GitlabClient) (debug : bool) :
  loadConfig (main.Flags.config flags) = inl config ->
  main.fs_Start mountpoint mountoptions param debug ∈ run flags ->
  let options :=
    if decide (main.Flags.o flags <> EmptyString)
    then main.Flags.o flags
    else main.FSConfig.MountOptions (main.Config.FS config) in
  (options = EmptyString -> mountoptions = [])
  /\ (options <> EmptyString ->
      mountoptions <> []
      /\ Forall (fun field => ~ occursIn ","%char field) mountoptions
      /\ strings_Join mountoptions ","%char = options).
Proof.
  intros Hload Hin.
  destruct (fs_Start_in_run _ _ _ _ _ Hin)
    as (config' & p & q & Hload' & _ & _ & _ & _ & -> & _).
  assert (config' = config) by congruence. subst config'.
  unfold parsedMountoptionsOf, mountoptionsOf. cbn zeta.
  set (options := if decide (main.Flags.o flags <> EmptyString)
                  then main.Flags.o flags
                  else main.FSConfig.MountOptions (main.Config.FS config)).
  split.
  - intros Hempty. by rewrite decide_False by (by intros []).
  - intros Hgiven. rewrite decide_True by done. unfold main.strings_Split.
    split; [apply splitFrom_nonempty|].
    split; [apply splitFrom_fields; by intros []|].
    apply strings_Join_splitFrom.
Qed.

(** X20: [loadConfig] fails only for a given configuration file, when
    the file does not open or when its content does not decode over the
    defaults; [main] then prints that error, wrapped, and exits with
    status 1 before anything is constructed. *)
Theorem loadConfig_failure (flags : main.Flags.t) (e : string) :
  loadConfig (main.Flags.config flags) = inr e ->
  main.Flags.config flags <> EmptyString
  /\ ((exists err,
         os_Open (main.Flags.config flags) = inr err
         /\ e = "failed to open config file: " +:+ err)
      \/ (exists f defaults err,
            os_Open (main.Flags.config flags) = inl f
            /\ loadConfig EmptyString = inl defaults
            /\ yaml_Decode f defaults = inr err
            /\ e = "failed to parse config file: " +:+ err))
  /\ run flags = [main.Println e; main.Exit 1].
Proof.
  intros Hload. split; [|split; [|by apply run_load_failed]].
  - intros Hpath. rewrite Hpath in Hload. by cbv in Hload.
  - unfold main.loadConfig in Hload |- *.
    case_decide as Hpath; [|done].
    destruct (os_Open _) as [f|err]; [|left; exists err; by simplify_eq].
    match type of Hload with
    | context [yaml_Decode f ?d] =>
      destruct (yaml_Decode f d) as [c|err] eqn:Hdecode; [done|]
    end.
    right. eexists f, _, err. split; [reflexivity|].
    rewrite decide_False by (by intros []).
    split; [reflexivity|]. split; [exact Hdecode|]. by simplify_eq.
Qed.

(** X21: started without a configuration file, with one mountpoint
    argument and no [-o] flag, where the default URL parses and ["http"]
    is a valid pull method, the process reads no file and starts the
    filesystem from the defaults: clones under the data directory of the
    environment, remote ["origin"], clone method [CloneInit], no automatic
    pull, queue size 200 with 5 workers, the anonymous gitlab client
    without the current user, the group 9970 and no users, mounted with
    ["nodev"] and ["nosuid"]. *)
Theorem main_defaults (flags : main.Flags.t) (mountpoint : string) (u : URL) :
  main.Flags.config flags = EmptyString ->
  main.Flags.args flags = [mountpoint] ->
  mountpoint <> EmptyString ->
  main.Flags.o flags = EmptyString ->
  url_Parse "https://gitlab.com" = inl u ->
  PullMethodHTTP = "http" \/ PullMethodSSH = "http" ->
  let dataHome :=
    if decide (Getenv "XDG_DATA_HOME" = EmptyString)
    then filepath_Join (Getenv "HOME") ".local/share"
    else Getenv "XDG_DATA_HOME" in
  let p :=
    git.GitClientParam.mk (filepath_Join dataHome "gitlabfs") "origin" u
      CloneInit false 0 200 5 in
  let q := gitlab.GitlabClientParam.mk "http" false in
  let param :=
    main.FSParam.mk (git_NewClient_result p)
      (gitlab_NewClient_result "https://gitlab.com" EmptyString q)
      [9970] [] in
  exists rest,
    run flags
    = main.git_NewClient p
      :: main.gitlab_NewClient "https://gitlab.com" EmptyString q
      :: main.fs_Start mountpoint ["nodev"; "nosuid"] param
           (main.Flags.debug flags)
      :: rest
    /\ (rest = [] \/ exists err, rest = [main.Println err; main.Exit 1]).
Proof.
  intros Hconfig Hargs Hmp Ho Hurl Hpull dataHome p q param.
  assert (Hload : loadConfig (main.Flags.config flags)
                  = inl (main.Config.mk
                           (main.FSConfig.mk EmptyString "nodev,nosuid")
                           (main.GitlabConfig.mk "https://gitlab.com"
                              EmptyString [9970] [] true)
                           (main.GitConfig.mk
                              (filepath_Join dataHome "gitlabfs") "origin"
                              "http" "init" false 0 200 5))).
  { rewrite Hconfig. unfold main.loadConfig.
    rewrite (decide_False (P := EmptyString <> EmptyString))
      by (by intros []).
    reflexivity. }
  set (config := main.Config.mk _ _ _) in Hload.
  assert (Hgit : makeGitConfig config = inl p).
  { unfold main.makeGitConfig. cbn. by rewrite Hurl. }
  assert (Hgitlab : makeGitlabConfig config = inl q).
  { unfold main.makeGitlabConfig. cbn.
    rewrite decide_False; [reflexivity|].
    intros [? ?]. by destruct Hpull. }
  assert (Hmountpoint : mountpointOf flags config = mountpoint).
  { unfold mountpointOf. by rewrite Hargs. }
  assert (Hoptions : parsedMountoptionsOf flags config = ["nodev"; "nosuid"]).
  { unfold parsedMountoptionsOf, mountoptionsOf. by rewrite Ho. }
  rewrite (run_accepted_exact flags config p q Hload
             ltac:(by rewrite Hmountpoint) Hgit Hgitlab).
  rewrite Hmountpoint, Hoptions. cbn.
  eexists. split; [reflexivity|].
  destruct (fs_Start_result _ _ _ _); eauto.
Qed.

End StartupMore.

(** ** The startup at the sample inputs *)

Example run_with_options :
  sample.run (sample.config "ssh" "clone" "glpat-token" 200) sample.optionFlags
  = [main.git_NewClient
       (git.GitClientParam.mk "/home/ann/.local/share/gitlabfs" "origin"
          "https://gitlab.com" 1 false 0 200 5);
     main.gitlab_NewClient "https://gitlab.com" "glpat-token"
       (gitlab.GitlabClientParam.mk "ssh" true);
     main.fs_Start "/mnt" ["ro"; "allow_other"]
       (main.FSParam.mk
          (git.GitClientParam.mk "/home/ann/.local/share/gitlabfs" "origin"
             "https://gitlab.com" 1 false 0 200 5)
          (gitlab.gitlabClient.mk (gitlab.GitlabClientParam.mk "ssh" true))
          [9970] [])
       true].
Proof. reflexivity. Qed.

Lemma main_construction_order_witness :
  let tr := sample.run (sample.config "ssh" "clone" "glpat-token" 200)
              sample.optionFlags in
  (exists e, tr !! 2%nat = Some e /\ startsFilesystem e)
  /\ (exists p, tr !! 0%nat = Some (main.git_NewClient p))
  /\ (exists url token q, tr !! 1%nat = Some (main.gitlab_NewClient url token q)).
Proof.
  intros tr.
  assert (He : exists e, tr !! 2%nat = Some e /\ startsFilesystem e)
    by (eexists; split; [reflexivity|exact I]).
  split; [exact He|]. destruct He as (e & Hi & Hstart).
  apply (main_construction_order "http" "ssh" 0 1 sample.Getenv sample.Join
           main.Config.t
           (sample.Open (sample.config "ssh" "clone" "glpat-token" 200))
           sample.Decode string sample.Parse (git.GitClientParam.t string)
           gitlab.gitlabClient.t (fun p => p)
           (fun _ _ p => gitlab.gitlabClient.mk p) (fun _ _ _ _ => None)
           sample.optionFlags 2%nat e Hi), Hstart.
Defined.

Lemma main_exit_is_last_witness :
  let tr := sample.run (sample.config "git" "init" EmptyString 200)
              sample.flags in
  exits tr 1
  /\ last tr = Some (main.Exit 1)
  /\ exists msg, main.Println msg ∈ tr.
Proof.
  intros tr.
  assert (Hexit : exits tr 1).
  { unfold exits. vm_compute. do 2 right. left. }
  split; [exact Hexit|].
  destruct (main_exit_is_last "http" "ssh" 0 1 sample.Getenv sample.Join
              main.Config.t
              (sample.Open (sample.config "git" "init" EmptyString 200))
              sample.Decode string sample.Parse (git.GitClientParam.t string)
              gitlab.gitlabClient.t (fun p => p)
              (fun _ _ p => gitlab.gitlabClient.mk p) (fun _ _ _ _ => None)
              sample.flags 1 Hexit)
    as (_ & Hlast & Hmsg & _).
  split; [exact Hlast|exact Hmsg].
Defined.

Lemma main_fs_Start_arguments_witness :
  let config := sample.config "ssh" "clone" "glpat-token" 200 in
  let p := git.GitClientParam.mk "/home/ann/.local/share/gitlabfs" "origin"
             "https://gitlab.com" 1 false 0 200 5 in
  let param := main.FSParam.mk p
                 (gitlab.gitlabClient.mk
                    (gitlab.GitlabClientParam.mk "ssh" true)) [9970] [] in
  main.fs_Start "/mnt" ["ro"; "allow_other"] param true
  ∈ sample.run config sample.optionFlags
  /\ main.FSParam.RootGroupIds param = [9970]
  /\ "/mnt" <> EmptyString.
Proof.
  intros config p param.
  assert (Hin : main.fs_Start "/mnt" ["ro"; "allow_other"] param true
                ∈ sample.run config sample.optionFlags).
  { unfold config. rewrite run_with_options. do 2 right. left. }
  split; [exact Hin|].
  destruct (main_fs_Start_arguments "http" "ssh" 0 1 sample.Getenv sample.Join
              main.Config.t (sample.Open config) sample.Decode string
              sample.Parse (git.GitClientParam.t string)
              gitlab.gitlabClient.t (fun p => p)
              (fun _ _ p => gitlab.gitlabClient.mk p) (fun _ _ _ _ => None)
              sample.optionFlags "/mnt" ["ro"; "allow_other"] param true Hin)
    as (config' & p' & q' & Hload & _ & _ & Hmp & _ & _ & _ & _ & _ & Hgroups
        & _).
  injection Hload as <-. split; [exact Hgroups|exact Hmp].
Defined.

Lemma main_mount_options_witness :
  let config := sample.config "ssh" "clone" "glpat-token" 200 in
  let p := git.GitClientParam.mk "/home/ann/.local/share/gitlabfs" "origin"
             "https://gitlab.com" 1 false 0 200 5 in
  let param := main.FSParam.mk p
                 (gitlab.gitlabClient.mk
                    (gitlab.GitlabClientParam.mk "ssh" true)) [9970] [] in
  main.fs_Start "/mnt" ["ro"; "allow_other"] param true
  ∈ sample.run config sample.optionFlags
  /\ strings_Join ["ro"; "allow_other"] ","%char = "ro,allow_other".
Proof.
  intros config p param.
  assert (Hin : main.fs_Start "/mnt" ["ro"; "allow_other"] param true
                ∈ sample.run config sample.optionFlags).
  { unfold config. rewrite run_with_options. do 2 right. left. }
  split; [exact Hin|].
  apply (main_mount_options "http" "ssh" 0 1 sample.Getenv sample.Join
           main.Config.t (sample.Open config) sample.Decode string
           sample.Parse (git.GitClientParam.t string)
           gitlab.gitlabClient.t (fun p => p)
           (fun _ _ p => gitlab.gitlabClient.mk p) (fun _ _ _ _ => None)
           sample.optionFlags config "/mnt" ["ro"; "allow_other"] param true
           eq_refl Hin).
  discriminate.
Defined.

Lemma loadConfig_failure_witness :
  let config := sample.config "ssh" "clone" "glpat-token" 200 in
  let e := "failed to open config file: "
           +:+ "open missing.yaml: no such file or directory" in
  main.loadConfig sample.Getenv sample.Join main.Config.t
    (sample.Open config) sample.Decode
    (main.Flags.config sample.missingFlags) = inr e
  /\ sample.run config sample.missingFlags = [main.Println e; main.Exit 1].
Proof.
  intros config e.
  assert (Hload : main.loadConfig sample.Getenv sample.Join main.Config.t
                    (sample.Open config) sample.Decode
                    (main.Flags.config sample.missingFlags) = inr e)
    by reflexivity.
  split; [exact Hload|].
  apply (loadConfig_failure "http" "ssh" 0 1 sample.Getenv sample.Join
           main.Config.t (sample.Open config) sample.Decode string
           sample.Parse (git.GitClientParam.t string)
           gitlab.gitlabClient.t (fun p => p)
           (fun _ _ p => gitlab.gitlabClient.mk p) (fun _ _ _ _ => None)
           sample.missingFlags e Hload).
Defined.

Lemma main_defaults_witness :
  let config := sample.config "ssh" "clone" "glpat-token" 200 in
  main.Flags.config sample.bareFlags = EmptyString
  /\ main.Flags.args sample.bareFlags = ["/mnt"]
  /\ sample.Parse "https://gitlab.com" = inl "https://gitlab.com"
  /\ exists rest,
       sample.run config sample.bareFlags
       = main.git_NewClient
           (git.GitClientParam.mk "/home/ann/.local/share/gitlabfs" "origin"
              "https://gitlab.com" 0 false 0 200 5)
         :: main.gitlab_NewClient "https://gitlab.com" EmptyString
              (gitlab.GitlabClientParam.mk "http" false)
         :: main.fs_Start "/mnt" ["nodev"; "nosuid"]
              (main.FSParam.mk
                 (git.GitClientParam.mk "/home/ann/.local/share/gitlabfs"
                    "origin" "https://gitlab.com" 0 false 0 200 5)
                 (gitlab.gitlabClient.mk
                    (gitlab.GitlabClientParam.mk "http" false))
                 [9970] [])
              false
         :: rest.
Proof.
  intros config. split; [reflexivity|]. split; [reflexivity|].
  split; [reflexivity|].
  destruct (main_defaults "http" "ssh" 0 1 sample.Getenv sample.Join
              main.Config.t (sample.Open config) sample.Decode string
              sample.Parse (git.GitClientParam.t string)
              gitlab.gitlabClient.t (fun p => p)
              (fun _ _ p => gitlab.gitlabClient.mk p) (fun _ _ _ _ => None)
              sample.bareFlags "/mnt" "https://gitlab.com"
              eq_refl eq_refl ltac:(discriminate) eq_refl eq_refl
              (or_introl eq_refl))
    as (rest & Hrun & _).
  exists rest. exact Hrun.
Defined.

(** ** Callers that race on one user *)

Section RacingCallers.

Context {W : Type}.
Variable ListUserProjects :
  W -> Z -> xanzy.ListProjectsOptions.t -> W * gitlab.Reply.
Variable NewProjectFromGitlabProject : xanzy.Project.t -> gitlab.Project.t.

Local Abbreviation Fetch :=
  (gitlab.FetchUserContent ListUserProjects NewProjectFromGitlabProject).
Local Abbreviation race :=
  (raceAfterCheck ListUserProjects NewProjectFromGitlabProject).
Local Abbreviation asksFirstPage stale :=
  (fun (fuel : nat) (tr : list gitlab.Exchange) =>
     fuel <> 0%nat ->
     exists reply rest,
       tr = ((gitlab.User.ID stale, gitlab.firstPage), reply) :: rest).

Lemma race_run (stale : gitlab.User.t) :
  gitlab.User.content stale = None ->
  forall (fuels : list nat) (s : gitlab.State.t W) (user : gitlab.User.t),
    let out := race fuels s user stale in
    length out.2 = length fuels
    /\ length (gitlab.State.heap out.1.1)
       = (length (gitlab.State.heap s) + length fuels)%nat
    /\ (forall i l, out.2 !! i = Some (Some (inl l)) ->
                    l = (length (gitlab.State.heap s) + i)%nat)
    /\ (exists trs,
          gitlab.State.calls out.1.1 = gitlab.State.calls s ++ concat trs
          /\ Forall2 (asksFirstPage stale) fuels trs)
    /\ gitlab.User.content out.1.2
       = match last (returned out.2) with
         | Some l => Some l
         | None => gitlab.User.content user
         end.
Proof.
  intros Hnone. induction fuels as [|fuel rest IH]; intros s user.
  - cbn. repeat split; [lia|done|].
    exists []. cbn. by rewrite app_nil_r.
  - cbn [raceAfterCheck]. cbn zeta.
    set (call := Fetch fuel s stale).
    destruct (Fetch_run _ _ _ _ _ _ _ _ Hnone
                (Fetch_eta ListUserProjects NewProjectFromGitlabProject
                   fuel s stale))
      as (Hcalls & _ & _ & Hfirst & Hout).
    pose proof (Fetch_heap_exact ListUserProjects NewProjectFromGitlabProject
                  fuel s stale Hnone) as Hheap.
    fold call in Hcalls, Hfirst, Hout, Hheap.
    match goal with
    | |- context [race rest call.1.1 ?u stale] =>
      set (user1 := u);
        destruct (IH call.1.1 user1)
          as (Hlen & Hgrow & Hptr & (trs & Hlog & Hasked) & Hcache)
    end.
    cbn [fst snd]. split; [cbn; by rewrite Hlen|].
    split; [rewrite Hgrow, Hheap, length_app; cbn; lia|].
    split; [|split].
    + intros [|i] l Hi; cbn in Hi.
      * injection Hi as Hi. rewrite Hi in Hout.
        destruct Hout as (-> & _). lia.
      * rewrite (Hptr i l Hi), Hheap, length_app. cbn. lia.
    + exists (newCalls s call.1.1 :: trs). split.
      * rewrite Hlog, Hcalls. cbn. by rewrite app_assoc.
      * by constructor.
    + rewrite Hcache. unfold returned. cbn [omap list_omap].
      subst user1. destruct call.2 as [[l|e]|] eqn:Hres; cbn.
      * destruct Hout as (_ & Hassigned & _).
        rewrite Hassigned. cbn. rewrite last_cons.
        match goal with |- context [last ?x] => by destruct (last x) end.
      * reflexivity.
      * reflexivity.
Qed.

Lemma asked_length (stale : gitlab.User.t) (fuels : list nat)
    (trs : list (list gitlab.Exchange)) :
  Forall2 (asksFirstPage stale) fuels trs ->
  Forall (fun fuel => fuel <> 0%nat) fuels ->
  (length fuels <= length (concat trs))%nat.
Proof.
  induction 1 as [|fuel tr fuels trs Hask _ IH]; intros Hfuel; [done|].
  apply Forall_cons in Hfuel as [Hpos Hfuel].
  destruct (Hask Hpos) as (reply & rest & ->).
  cbn. rewrite length_app. specialize (IH Hfuel). lia.
Qed.


End RacingCallers.


